(** * OpenBB documentation server: TOC parser, section extractor, operations

    A shallow embedding of [server.py].  Python [str] values are modelled as
    [string]; a character is a code point below 256, so that whitespace and
    case folding are the ones of [str.isspace] and [str.lower] on that range.
    Python [dict]s keyed by strings are finite maps [gmap string _]. *)

From Stdlib Require Import Ascii String.
From stdpp Require Import gmap strings list fin_maps.

Local Open Scope string_scope.

(** ** Python string primitives *)

Module PyStr.

(** [str.isspace] on one character: TAB..CR, FS..US, SPACE, NEL, NBSP. *)
Definition isspace (c : ascii) : bool :=
  let n := nat_of_ascii c in
  (Nat.leb 9 n && Nat.leb n 13) || (Nat.leb 28 n && Nat.leb n 32)
  || Nat.eqb n 133 || Nat.eqb n 160.

(** [str.lower] on one character: A..Z and the upper-case letters
    U+00C0..U+00DE (the multiplication sign U+00D7 apart) move up by 32. *)
Definition lower_char (c : ascii) : ascii :=
  let n := nat_of_ascii c in
  if (Nat.leb 65 n && Nat.leb n 90)
     || (Nat.leb 192 n && Nat.leb n 222 && negb (Nat.eqb n 215))
  then ascii_of_nat (n + 32) else c.

Fixpoint lower (s : string) : string :=
  match s with
  | EmptyString => EmptyString
  | String c s' => String (lower_char c) (lower s')
  end.

Fixpoint lstrip (s : string) : string :=
  match s with
  | EmptyString => EmptyString
  | String c s' => if isspace c then lstrip s' else s
  end.

Fixpoint rstrip (s : string) : string :=
  match s with
  | EmptyString => EmptyString
  | String c s' =>
      match rstrip s' with
      | EmptyString => if isspace c then EmptyString else String c EmptyString
      | r => String c r
      end
  end.

(** [s.strip()] *)
Definition strip (s : string) : string := rstrip (lstrip s).

(** [s.startswith(p)] *)
Definition startswith (p s : string) : bool := String.prefix p s.

(** [s[n:]] *)
Fixpoint slice_from (n : nat) (s : string) : string :=
  match n, s with
  | O, _ => s
  | S _, EmptyString => EmptyString
  | S n', String _ s' => slice_from n' s'
  end.

(** [s.replace(c, '')] for a one-character [c] *)
Fixpoint remove_char (c : ascii) (s : string) : string :=
  match s with
  | EmptyString => EmptyString
  | String d s' =>
      if Ascii.eqb d c then remove_char c s' else String d (remove_char c s')
  end.

(** [needle in hay] *)
Fixpoint contains (needle hay : string) : bool :=
  String.prefix needle hay
  || match hay with
     | EmptyString => false
     | String _ hay' => contains needle hay'
     end.

(** [s.split('\n')]: never empty, [''.split('\n') == ['']]. *)
Fixpoint split_nl (s : string) : list string :=
  match s with
  | EmptyString => [EmptyString]
  | String c s' =>
      if Ascii.eqb c "010" then EmptyString :: split_nl s'
      else match split_nl s' with
           | [] => [String c EmptyString]
           | l :: ls => String c l :: ls
           end
  end.

(** ['\n'.join(ls)] *)
Definition join_nl (ls : list string) : string :=
  String.concat (String "010" EmptyString) ls.

(** All characters of [s] are whitespace. *)
Fixpoint all_space (s : string) : bool :=
  match s with
  | EmptyString => true
  | String c s' => isspace c && all_space s'
  end.

End PyStr.

Import PyStr.

(** ** The link pattern [\[([^\]]+)\]\(([^)]+)\)] *)

(** The longest prefix of [s] free of [stop], and what follows it: the greedy
    run of a negated one-character class. *)
Fixpoint span_until (stop : ascii) (s : string) : string * string :=
  match s with
  | EmptyString => (EmptyString, EmptyString)
  | String c s' =>
      if Ascii.eqb c stop then (EmptyString, s)
      else let '(a, b) := span_until stop s' in (String c a, b)
  end.

(** A match of the pattern anchored at the head of [s].  Each group is a
    run of a class that excludes the character required right after it, so
    only the longest run can be followed by that character. *)
Definition match_link_at (s : string) : option (string * string) :=
  match s with
  | String "["%char r =>
      let '(g1, r1) := span_until "]" r in
      if String.eqb g1 "" then None
      else match r1 with
           | String "]"%char (String "("%char r2) =>
               let '(g2, r3) := span_until ")" r2 in
               if String.eqb g2 "" then None
               else match r3 with
                    | String ")"%char _ => Some (g1, g2)
                    | _ => None
                    end
           | _ => None
           end
  | _ => None
  end.

(** [re.search]: the match at the leftmost position that has one. *)
Fixpoint link_search (s : string) : option (string * string) :=
  match match_link_at s with
  | Some m => Some m
  | None =>
      match s with
      | EmptyString => None
      | String _ s' => link_search s'
      end
  end.

(** ** TOC parser *)

Record section := {
  title : string;
  category : string;
  url : string;
  description : string
}.

(** [line.startswith(('-', '*', '1.', '2.', '3.', '4.', '5.'))] *)
Definition is_list_item (line : string) : bool :=
  existsb (fun p => startswith p line) ["-"; "*"; "1."; "2."; "3."; "4."; "5."].

(** [query and query.lower() not in title.lower()
     and query.lower() not in current_category.lower()] *)
Definition filtered_out (query : option string) (ttl cat : string) : bool :=
  match query with
  | None => false
  | Some q =>
      negb (String.eqb q "")
      && negb (contains (lower q) (lower ttl))
      && negb (contains (lower q) (lower cat))
  end.

(** The dictionary appended for a link found under [current_category]. *)
Definition descriptor (current_category ttl u : string) : section :=
  {| title := ttl;
     category := current_category;
     url := u;
     description :=
       if String.eqb current_category "" then ttl
       else current_category ++ ": " ++ ttl |}.

(** One iteration of the loop over the lines, on the loop state
    [(current_category, sections)]. *)
Definition parse_line (query : option string)
    (st : string * list section) (raw : string) : string * list section :=
  let '(current_category, sections) := st in
  let line := strip raw in
  if String.eqb line "" then st
  else if negb (is_list_item line) then
    if negb (String.eqb line "") && negb (startswith "#" line)
       && negb (startswith "http" line)
    then (strip (remove_char "#" line), sections)
    else st
  else
    match link_search line with
    | Some (g1, g2) =>
        let ttl := strip g1 in
        let u := strip g2 in
        if filtered_out query ttl current_category then st
        else (current_category,
              (sections ++ [descriptor current_category ttl u])%list)
    | None => st
    end.

Definition _parse_toc (toc_content : string) (query : option string)
  : list section :=
  snd (fold_left (parse_line query) (split_nl (strip toc_content)) ("", [])).

(** ** Section extractor *)

(** [line.lower().startswith('title:')] and
    [line[6:].strip().lower() == title.lower()] for [line = lines[i].strip()]. *)
Definition is_title_line (ttl raw : string) : bool :=
  let line := strip raw in
  startswith "title:" (lower line)
  && String.eqb (lower (strip (slice_from 6 line))) (lower ttl).

(** [lines[j].strip() == '---'] *)
Definition is_delim (raw : string) : bool := String.eqb (strip raw) "---".

(** [lines[j].strip() == ''] *)
Definition is_blank (raw : string) : bool := String.eqb (strip raw) "".

(** The loops below run on the indices [i] and [j] of the source.  A loop
    stops when its index reaches [len(lines)]; [fuel] bounds the number of
    iterations, and [len(lines)] iterations are always enough. *)

(** [while j < len(lines) and lines[j].strip() != '---': j += 1]; the result
    is [j] when the loop stops. *)
Fixpoint skip_loop (lines : list string) (fuel j : nat) : nat :=
  match fuel with
  | O => j
  | S fuel' =>
      match lines !! j with
      | Some l => if is_delim l then j else skip_loop lines fuel' (S j)
      | None => j
      end
  end.

(** The break test of the collecting loop:
    [lines[j].strip() == '---' and j + 1 < len(lines) and
     (lines[j + 1].strip() == '---' or lines[j + 1].strip() == '')]. *)
Definition next_section_starts (lines : list string) (j : nat) : bool :=
  match lines !! j, lines !! (S j) with
  | Some l, Some n => is_delim l && (is_delim n || is_blank n)
  | _, _ => false
  end.

(** [while j < len(lines): if <break test>: break;
     content_lines.append(lines[j]); j += 1]; the result is [content_lines]. *)
Fixpoint collect_loop (lines : list string) (fuel j : nat)
    (content_lines : list string) : list string :=
  match fuel with
  | O => content_lines
  | S fuel' =>
      match lines !! j with
      | Some l =>
          if next_section_starts lines j then content_lines
          else collect_loop lines fuel' (S j) (content_lines ++ [l])%list
      | None => content_lines
      end
  end.

(** [while i < len(lines): ...; i += 1], with the [return] inside it and the
    [return None] after it. *)
Fixpoint scan_loop (lines : list string) (ttl : string) (fuel i : nat)
  : option string :=
  match fuel with
  | O => None
  | S fuel' =>
      match lines !! i with
      | Some raw =>
          if is_title_line ttl raw then
            let j := S i in
            let j := skip_loop lines (length lines) j in
            let j := S j in
            Some (join_nl (collect_loop lines (length lines) j []))
          else scan_loop lines ttl fuel' (S i)
      | None => None
      end
  end.

Definition _find_section_content (full_docs ttl : string) : option string :=
  let lines := split_nl full_docs in
  scan_loop lines ttl (length lines) 0.

(** An exception object, by what the handlers read of it: [type(e).__name__],
    [str(e)] and [traceback.format_exc()]. *)
Record exn := {
  exn_type : string;
  exn_msg : string;
  exn_traceback : string
}.

(** A call either returns or raises (an instance of [Exception]). *)
Inductive outcome (A : Type) : Type :=
  | Return (a : A)
  | Raise (e : exn).
Arguments Return {A} a.
Arguments Raise {A} e.

#[export] Instance outcome_ret : MRet outcome := fun A a => Return a.
#[export] Instance outcome_bind : MBind outcome := fun A B f m =>
  match m with
  | Return a => f a
  | Raise e => Raise e
  end.

(** [try: body / except Exception as e: handler e] *)
Definition try_except {A} (body : outcome A) (handler : exn -> outcome A)
  : outcome A :=
  match body with
  | Return a => Return a
  | Raise e => handler e
  end.

Definition not_found_msg (ttl : string) : string :=
  "Section '" ++ ttl ++ "' not found in documentation.".

Definition error_msg (ttl : string) (e : exn) : string :=
  "Error extracting section '" ++ ttl ++ "': " ++ exn_msg e.

(** Truth value of an [Optional[str]]: [None] and [''] are false. *)
Definition truthy (o : option string) : bool :=
  match o with
  | Some s => negb (String.eqb s "")
  | None => false
  end.

(** [for x in xs: s = body s x], where the body may raise. *)
Fixpoint for_each {A S : Type} (body : S → A → outcome S) (xs : list A) (s : S)
  : outcome S :=
  match xs with
  | [] => mret s
  | x :: xs' => s' ← body s x; for_each body xs' s'
  end.

Section Extractor.

(** The callee of the loop body, which may raise. *)
Variable find : string → string → outcome (option string).

(** One iteration of [for title in section_titles], with its [try]. *)
Definition extract_step (full_docs : string)
    (content_sections : gmap string string) (ttl : string)
  : outcome (gmap string string) :=
  try_except
    (section_content ← find full_docs ttl;
     if truthy section_content
     then mret (<[ttl := default "" section_content]> content_sections)
     else mret (<[ttl := not_found_msg ttl]> content_sections))
    (fun e => mret (<[ttl := error_msg ttl e]> content_sections)).

Definition extract_sections_with (full_docs : string)
    (section_titles : list string) : outcome (gmap string string) :=
  for_each (extract_step full_docs) section_titles ∅.

End Extractor.

(** [_find_section_content] as a callee: on strings it always returns. *)
Definition call_find (full_docs ttl : string) : outcome (option string) :=
  Return (_find_section_content full_docs ttl).

Definition _extract_sections_from_docs
    (full_docs : string) (section_titles : list string)
  : outcome (gmap string string) :=
  extract_sections_with call_find full_docs section_titles.

(** ** Operation layer *)

Definition TOC_URL : string := "https://docs.openbb.co/workspace/llms.txt".
Definition FULL_DOCS_URL : string :=
  "https://docs.openbb.co/workspace/llms-full.txt".

(** The HTTP response object, by what the operations use of it:
    [raise_for_status()] returns or raises, [text] is the decoded body. *)
Record http_response := {
  raise_for_status : outcome unit;
  text : string
}.

(** The values held by the response dictionaries. *)
Inductive value :=
  | VBool (b : bool)
  | VStr (s : string)
  | VInt (n : nat)
  | VUrls (m : gmap string string)
  | VSections (m : gmap string (gmap string string)).

(** [{section["title"]: section["url"] for section in parsed_sections}] *)
Definition url_map (parsed_sections : list section) : gmap string string :=
  fold_left (fun m s => <[title s := url s]> m) parsed_sections ∅.

(** The loop over [content_sections.items()] that builds
    [sections_with_urls]; each key is written once, so the order of the
    iteration does not show in the result. *)
Definition attach_urls (section_url_map content_sections : gmap string string)
  : gmap string (gmap string string) :=
  map_fold
    (fun ttl content sections_with_urls =>
       let u := default "URL not found" (section_url_map !! ttl) in
       <[ttl := {[ "url" := u; "content" := content ]}]> sections_with_urls)
    ∅ content_sections.

Section Operations.

(** [client.get]: the remote side, which returns a response or raises. *)
Variable get : string → outcome http_response.

Definition identify_body (user_query : string)
  : outcome (gmap string value) :=
  response ← get TOC_URL;
  _ ← raise_for_status response;
  let toc_content := text response in
  let parsed_sections := _parse_toc toc_content None in
  let section_url_map := url_map parsed_sections in
  mret {[ "success" := VBool true;
          "query" := VStr user_query;
          "raw_toc_content" := VStr toc_content;
          "section_urls" := VUrls section_url_map ]}.

Definition identify_handler (user_query : string) (e : exn)
  : outcome (gmap string value) :=
  mret {[ "success" := VBool false;
          "error" := VStr (exn_msg e);
          "error_type" := VStr (exn_type e);
          "traceback" := VStr (exn_traceback e);
          "query" := VStr user_query;
          "raw_toc_content" := VStr "" ]}.

Definition _identify_sections_async (user_query : string)
  : outcome (gmap string value) :=
  try_except (identify_body user_query) (identify_handler user_query).

Definition fetch_body (section_titles : list string) (user_query : string)
  : outcome (gmap string value) :=
  toc_response ← get TOC_URL;
  _ ← raise_for_status toc_response;
  let toc_content := text toc_response in
  docs_response ← get FULL_DOCS_URL;
  _ ← raise_for_status docs_response;
  let full_docs := text docs_response in
  let parsed_sections := _parse_toc toc_content None in
  let section_url_map := url_map parsed_sections in
  content_sections ← _extract_sections_from_docs full_docs section_titles;
  let sections_with_urls := attach_urls section_url_map content_sections in
  mret {[ "success" := VBool true;
          "user_query" := VStr user_query;
          "extracted_content" := VSections sections_with_urls;
          "sections_found" := VInt (size content_sections) ]}.

Definition fetch_handler (user_query : string) (e : exn)
  : outcome (gmap string value) :=
  mret {[ "success" := VBool false;
          "error" := VStr (exn_msg e);
          "error_type" := VStr (exn_type e);
          "traceback" := VStr (exn_traceback e);
          "user_query" := VStr user_query;
          "extracted_content" := VSections ∅ ]}.

Definition _fetch_content_async
    (section_titles : list string) (user_query : string)
  : outcome (gmap string value) :=
  try_except (fetch_body section_titles user_query)
             (fetch_handler user_query).

(** The registered tools: [try: result = await <operation>; return result
    / except Exception as e: <log>; raise]. *)
Definition identify_openbb_docs_sections (user_query : string)
  : outcome (gmap string value) :=
  try_except
    (result ← _identify_sections_async user_query; mret result)
    (fun e => Raise e).

Definition fetch_openbb_content
    (section_titles : list string) (user_query : string)
  : outcome (gmap string value) :=
  try_except
    (result ← _fetch_content_async section_titles user_query; mret result)
    (fun e => Raise e).

End Operations.

(** ** Notions used to state the properties *)

(** The three loops of [_find_section_content] seen on the rest of the
    lines, [ls = lines[j:]], for structural induction. *)

(** What is left when the skipping loop stops. *)
Fixpoint skip_front_matter (ls : list string) : list string :=
  match ls with
  | [] => []
  | l :: ls' => if is_delim l then ls else skip_front_matter ls'
  end.

(** A section boundary heads [ls]: a [---] line, then a line that is [---]
    or blank. *)
Definition at_boundary (ls : list string) : bool :=
  match ls with
  | l :: n :: _ => is_delim l && (is_delim n || is_blank n)
  | _ => false
  end.

(** What the collecting loop appends. *)
Fixpoint collect_body (ls : list string) : list string :=
  match ls with
  | [] => []
  | l :: ls' => if at_boundary ls then [] else l :: collect_body ls'
  end.

(** The result of the scan.  Stepping past the closing [---] is [tail]:
    with no closing line nothing is left to collect. *)
Fixpoint find_from (ttl : string) (ls : list string) : option string :=
  match ls with
  | [] => None
  | l :: ls' =>
      if is_title_line ttl l
      then Some (join_nl (collect_body (tail (skip_front_matter ls'))))
      else find_from ttl ls'
  end.

(** The requested title heads exactly [n] lines of the document. *)
Definition count_title_lines (ttl : string) (ls : list string) : nat :=
  length (List.filter (is_title_line ttl) ls).

(** Position [k] of [after] is the first one at which the collecting loop
    breaks: a [---] line followed by a [---] line or a blank line. *)
Definition first_boundary_at (after : list string) (k : nat) : Prop :=
  at_boundary (drop k after) = true
  ∧ ∀ k', k' < k → at_boundary (drop k' after) = false.

(** What one requested title is mapped to. *)
Definition entry_of (find : string → string → outcome (option string))
    (full_docs ttl : string) : string :=
  match find full_docs ttl with
  | Return section_content =>
      if truthy section_content then default "" section_content
      else not_found_msg ttl
  | Raise e => error_msg ttl e
  end.

(** The entry built for one title: the url of the TOC, or the literal
    fallback, next to the content. *)
Definition with_url (section_url_map : gmap string string)
    (ttl content : string) : gmap string string :=
  {[ "url" := default "URL not found" (section_url_map !! ttl);
     "content" := content ]}.

(** The response of a fetch whose two documents arrive. *)
Definition fetch_payload (toc_content : string) (user_query : string)
    (content_sections : gmap string string) : gmap string value :=
  {[ "success" := VBool true;
     "user_query" := VStr user_query;
     "extracted_content" :=
       VSections (attach_urls (url_map (_parse_toc toc_content None))
                    content_sections);
     "sections_found" := VInt (size content_sections) ]}.

(** A list-item line that holds a link. *)
Definition is_link_item (raw : string) : bool :=
  is_list_item (strip raw)
  && match link_search (strip raw) with Some _ => true | None => false end.

(** A line the parser passes over: blank, a [#] heading or a bare URL that
    is no list item, or a list item without a link. *)
Definition is_passed_over (raw : string) : bool :=
  let line := strip raw in
  String.eqb line ""
  || (negb (is_list_item line)
      && (startswith "#" line || startswith "http" line))
  || (is_list_item line
      && match link_search line with Some _ => false | None => true end).

(** A line that sets the category: not blank, no list item, no [#]
    heading, no bare URL. *)
Definition is_category_line (raw : string) : bool :=
  let line := strip raw in
  negb (String.eqb line "") && negb (is_list_item line)
  && negb (startswith "#" line) && negb (startswith "http" line).

(** The loop of [_parse_toc] run over [ls] from a given category, and the
    category the loop has reached at the end of a TOC. *)
Definition parse_lines_from (query : option string)
    (current_category : string) (ls : list string) : list section :=
  snd (fold_left (parse_line query) ls (current_category, [])).

Definition category_reached (query : option string) (toc_content : string)
  : string :=
  fst (fold_left (parse_line query) (split_nl (strip toc_content)) ("", [])).

(** The query lets the descriptor through. *)
Definition passes_query (query : option string) (d : section) : bool :=
  negb (filtered_out query (title d) (category d)).

(** ** Example inputs *)

Definition nl : string := String "010" "".

Definition setup_toc : string :=
  "## Setup" ++ nl ++ "- [Installation](https://x/install)"
  ++ nl ++ "- [Quickstart](https://x/quick)".

Definition plain_setup_toc : string :=
  "Setup" ++ nl ++ "- [Installation](https://x/install)"
  ++ nl ++ "- [Quickstart](https://x/quick)".

Definition blank_link_toc : string := "- [ ](https://x/install)".

(** A document of two sections, the first with a horizontal rule in its body. *)
Definition two_section_docs : string :=
  "---" ++ nl ++ "title: Installation" ++ nl ++ "sidebar_position: 1" ++ nl
  ++ "---" ++ nl ++ "Run the installer." ++ nl ++ "---" ++ nl ++ "Then log in."
  ++ nl ++ "---" ++ nl ++ nl
  ++ "---" ++ nl ++ "title: Quickstart" ++ nl ++ "---" ++ nl ++ "Open a dashboard."
  ++ nl ++ "---" ++ nl.

(** A document whose first section has no body. *)
Definition empty_body_docs : string :=
  "---" ++ nl ++ "title: Changelog" ++ nl ++ "---" ++ nl ++ "---" ++ nl ++ nl
  ++ "---" ++ nl ++ "title: Quickstart" ++ nl ++ "---" ++ nl ++ "Open a dashboard."
  ++ nl ++ "---" ++ nl.

(** A callee that fails on the title ["Broken"] and is the finder elsewhere. *)
Definition failing_find (full_docs ttl : string) : outcome (option string) :=
  if String.eqb ttl "Broken"
  then Raise {| exn_type := "RuntimeError"; exn_msg := "boom";
                exn_traceback := "" |}
  else call_find full_docs ttl.

(** A remote side that serves the two documents. *)
Definition serving_get (toc docs : string) (u : string)
  : outcome http_response :=
  Return {| raise_for_status := Return tt;
            text := if String.eqb u TOC_URL then toc else docs |}.

(** A remote side that cannot be reached. *)
Definition connect_error : exn :=
  {| exn_type := "ConnectError";
     exn_msg := "All connection attempts failed";
     exn_traceback := "Traceback (most recent call last): ..." |}.

Definition unreachable_get (u : string) : outcome http_response :=
  Raise connect_error.

(** TOC texts: one link under a category; the same with a heading in
    between; the same continued by a second category with a list item
    without a link and two more links. *)
Definition guides_toc : string :=
  "Guides" ++ nl ++ "- [Install](https://x/i)".

Definition guides_heading_toc : string :=
  "Guides" ++ nl ++ "# Heading" ++ nl ++ "- [Install](https://x/i)".

Definition guides_data_tail_toc : string :=
  "Data" ++ nl
  ++ "- see below" ++ nl ++ "* [Widgets]( https://x/w )" ++ nl
  ++ "3. [Data Guides](https://x/d)".

Definition guides_data_toc : string :=
  "Guides" ++ nl ++ "- [Install](https://x/i)" ++ nl ++ "Data" ++ nl
  ++ "- see below" ++ nl ++ "* [Widgets]( https://x/w )" ++ nl
  ++ "3. [Data Guides](https://x/d)".

(** A document in which two sections carry the same title. *)
Definition twice_docs : string :=
  "---" ++ nl ++ "title: Widgets" ++ nl ++ "---" ++ nl ++ "First body."
  ++ nl ++ "---" ++ nl ++ nl
  ++ "---" ++ nl ++ "title: widgets" ++ nl ++ "---" ++ nl ++ "Second body."
  ++ nl ++ "---" ++ nl.

(** A TOC in which two links carry the same title. *)
Definition repeated_title_toc : string :=
  "Guides" ++ nl ++ "- [Install](https://x/old)" ++ nl
  ++ "- [Install](https://x/new)".

(** A remote side that serves the TOC and answers the full-docs request
    with a status that [raise_for_status] rejects. *)
Definition status_error : exn :=
  {| exn_type := "HTTPStatusError";
     exn_msg := "Server error '503 Service Unavailable'";
     exn_traceback := "Traceback (most recent call last): ..." |}.

Definition docs_down_get (toc : string) (u : string) : outcome http_response :=
  if String.eqb u TOC_URL
  then Return {| raise_for_status := Return tt; text := toc |}
  else Return {| raise_for_status := Raise status_error; text := "" |}.

(** ** Facts about the string primitives *)

Lemma all_space_lstrip s : all_space (lstrip s) = all_space s.
Proof.
  induction s as [|c s IH]; simpl; [done|].
  destruct (isspace c) eqn:Hc; simpl; [done|]. by rewrite Hc.
Qed.

Lemma rstrip_empty s : rstrip s = "" ↔ all_space s = true.
Proof.
  induction s as [|c s IH]; simpl; [done|].
  destruct (rstrip s) eqn:Hr.
  - destruct (isspace c); simpl; [|split; discriminate].
    split; intros _; [by apply IH | done].
  - split; [discriminate|].
    intros [_ Hs]%andb_prop. apply IH in Hs. discriminate.
Qed.

Lemma strip_empty s : strip s = "" ↔ all_space s = true.
Proof. unfold strip. by rewrite rstrip_empty, all_space_lstrip. Qed.

Lemma span_until_nonempty stop s g r :
  span_until stop s = (g, r) → String.eqb g "" = false → g ≠ "".
Proof. intros _ H ->. discriminate. Qed.

Lemma match_link_at_nonempty s g1 g2 :
  match_link_at s = Some (g1, g2) → g1 ≠ "" ∧ g2 ≠ "".
Proof.
  unfold match_link_at. intros H.
  repeat (case_match; simplify_eq; try done).
  split; intros ->; done.
Qed.

Lemma link_search_unfold s :
  link_search s
  = match match_link_at s with
    | Some m => Some m
    | None => match s with
              | EmptyString => None
              | String _ s' => link_search s'
              end
    end.
Proof. by destruct s. Qed.

Lemma link_search_nonempty s g1 g2 :
  link_search s = Some (g1, g2) → g1 ≠ "" ∧ g2 ≠ "".
Proof.
  induction s as [|c s IH]; rewrite link_search_unfold.
  - done.
  - destruct (match_link_at (String c s)) as [[h1 h2]|] eqn:Hm.
    + intros [= -> ->]. by eapply match_link_at_nonempty.
    + exact IH.
Qed.

(** ** Facts about the TOC parser *)

(** A line leaves the list as it is or appends the descriptor of the link
    it holds, under the category current at that line. *)
Lemma parse_line_emits query cat secs raw :
  snd (parse_line query (cat, secs) raw) = secs
  ∨ ∃ g1 g2, link_search (strip raw) = Some (g1, g2)
      ∧ snd (parse_line query (cat, secs) raw)
        = (secs ++ [descriptor cat (strip g1) (strip g2)])%list.
Proof.
  unfold parse_line.
  repeat (case_match; simplify_eq; simpl; auto).
  right. eauto.
Qed.

(** A property of every emitted descriptor holds of the whole result. *)
Lemma parse_fold_Forall (P : section → Prop) query ls st :
  (∀ cat line g1 g2, link_search line = Some (g1, g2) →
     P (descriptor cat (strip g1) (strip g2))) →
  Forall P (snd st) →
  Forall P (snd (fold_left (parse_line query) ls st)).
Proof.
  intros HP. revert st.
  induction ls as [|l ls IH]; intros [cat secs] Hst; cbn [fold_left]; [done|].
  apply IH.
  destruct (parse_line_emits query cat secs l) as [->|(g1 & g2 & Hs & ->)].
  - exact Hst.
  - apply Forall_app. split; [exact Hst|].
    apply Forall_singleton. by eapply HP.
Qed.

Lemma parse_toc_Forall (P : section → Prop) toc query :
  (∀ cat line g1 g2, link_search line = Some (g1, g2) →
     P (descriptor cat (strip g1) (strip g2))) →
  Forall P (_parse_toc toc query).
Proof. intros HP. apply parse_fold_Forall; [exact HP | constructor]. Qed.

(** ** Theorems on the TOC parser *)

(** C3, as the code has it: the TOC text of the end-to-end example parses to
    exactly two descriptors, and both have the empty category, since the
    [#]-prefixed line [## Setup] does not set the category; with the header
    written [Setup] both have the category ["Setup"]. *)
Theorem parse_toc_setup_example :
  _parse_toc setup_toc None
  = [descriptor "" "Installation" "https://x/install";
     descriptor "" "Quickstart" "https://x/quick"]
  ∧ _parse_toc plain_setup_toc None
    = [descriptor "Setup" "Installation" "https://x/install";
       descriptor "Setup" "Quickstart" "https://x/quick"].
Proof. split; vm_compute; reflexivity. Qed.

(** C3, refuted as stated: the example TOC does not parse to two descriptors
    that both have the category ["Setup"]. *)
Lemma parse_toc_setup_not_category :
  ¬ (length (_parse_toc setup_toc None) = 2
     ∧ ∀ d, d ∈ _parse_toc setup_toc None → category d = "Setup").
Proof.
  intros [_ H].
  specialize (H (descriptor "" "Installation" "https://x/install")).
  assert (Hin : descriptor "" "Installation" "https://x/install"
                ∈ _parse_toc setup_toc None).
  { vm_compute. apply list_elem_of_here. }
  apply H in Hin. discriminate Hin.
Qed.

(** Where a descriptor comes from: a list-item line on which the link
    pattern matched, under the category current at that line. *)
Lemma parse_line_origin query cat secs raw d :
  d ∈ snd (parse_line query (cat, secs) raw) →
  d ∈ secs
  ∨ ∃ g1 g2, is_list_item (strip raw) = true
      ∧ link_search (strip raw) = Some (g1, g2)
      ∧ d = descriptor cat (strip g1) (strip g2).
Proof.
  unfold parse_line.
  destruct (String.eqb (strip raw) ""); [by left|].
  destruct (is_list_item (strip raw)) eqn:Hli; cbn [negb].
  - destruct (link_search (strip raw)) as [[g1 g2]|] eqn:Hs; [|by left].
    destruct (filtered_out query (strip g1) cat); [by left|].
    cbn [snd]. intros [Hd|Hd]%elem_of_app; [by left|].
    apply list_elem_of_singleton in Hd. right. by exists g1, g2.
  - case_match; by left.
Qed.

Lemma parse_fold_origin query ls st d :
  d ∈ snd (fold_left (parse_line query) ls st) →
  d ∈ snd st
  ∨ ∃ raw cat g1 g2, raw ∈ ls
      ∧ is_list_item (strip raw) = true
      ∧ link_search (strip raw) = Some (g1, g2)
      ∧ d = descriptor cat (strip g1) (strip g2).
Proof.
  revert st. induction ls as [|l ls IH]; intros [cat secs]; [by left|].
  cbn [fold_left]. intros Hd.
  destruct (IH _ Hd) as [Hin|(raw & c & g1 & g2 & Hraw & Hrest)].
  - destruct (parse_line_origin query cat secs l d Hin)
      as [Hs|(g1 & g2 & Hrest)]; [by left|].
    right. exists l, cat, g1, g2. split; [apply list_elem_of_here|done].
  - right. exists raw, c, g1, g2. split; [by apply list_elem_of_further|done].
Qed.

(** C7, as the code has it: the title and the url of every descriptor are
    the trimmed link text and link target that the link pattern matched on
    a list-item line of the TOC, both matched non-empty; each is empty
    exactly when what was matched is all whitespace. *)
Theorem parse_toc_title_url_trimmed toc query d :
  d ∈ _parse_toc toc query →
  ∃ raw g1 g2,
    raw ∈ split_nl (strip toc)
    ∧ is_list_item (strip raw) = true
    ∧ link_search (strip raw) = Some (g1, g2)
    ∧ g1 ≠ "" ∧ g2 ≠ ""
    ∧ title d = strip g1 ∧ url d = strip g2
    ∧ (title d = "" ↔ all_space g1 = true)
    ∧ (url d = "" ↔ all_space g2 = true).
Proof.
  unfold _parse_toc. intros Hd.
  destruct (parse_fold_origin _ _ _ _ Hd)
    as [Hnil|(raw & cat & g1 & g2 & Hraw & Hli & Hs & ->)].
  - by apply elem_of_nil in Hnil.
  - exists raw, g1, g2.
    destruct (link_search_nonempty _ _ _ Hs) as [H1 H2].
    cbn [title url descriptor].
    repeat split; auto; by apply strip_empty.
Qed.

Lemma parse_toc_title_url_trimmed_witness :
  ∃ raw g1 g2,
    raw ∈ split_nl (strip blank_link_toc)
    ∧ is_list_item (strip raw) = true
    ∧ link_search (strip raw) = Some (g1, g2)
    ∧ g1 ≠ "" ∧ g2 ≠ ""
    ∧ "" = strip g1 ∧ "https://x/install" = strip g2
    ∧ ("" = "" ↔ all_space g1 = true)
    ∧ ("https://x/install" = "" ↔ all_space g2 = true).
Proof.
  apply (parse_toc_title_url_trimmed blank_link_toc None
           (descriptor "" "" "https://x/install")).
  vm_compute. apply list_elem_of_here.
Defined.

(** C7, refuted as stated: a link whose text is a single space gives a
    descriptor with an empty title. *)
Lemma parse_toc_empty_title :
  ¬ (∀ d, d ∈ _parse_toc blank_link_toc None → title d ≠ "" ∧ url d ≠ "").
Proof.
  intros H.
  destruct (H (descriptor "" "" "https://x/install")) as [Ht _].
  - vm_compute. apply list_elem_of_here.
  - by apply Ht.
Qed.

(** C8: the description of every descriptor is its category, [": "] and its
    title when the category is non-empty, and its title when the category is
    empty. *)
Theorem parse_toc_description toc query d :
  d ∈ _parse_toc toc query →
  (category d ≠ "" → description d = category d ++ ": " ++ title d)
  ∧ (category d = "" → description d = title d).
Proof.
  revert d. apply Forall_forall. apply parse_toc_Forall.
  intros cat line g1 g2 _. simpl.
  destruct (String.eqb_spec cat ""); split; intros; congruence.
Qed.

Lemma parse_toc_description_witness :
  description (descriptor "Setup" "Installation" "https://x/install")
  = "Setup: Installation".
Proof.
  apply (parse_toc_description plain_setup_toc None
           (descriptor "Setup" "Installation" "https://x/install")).
  - vm_compute. apply list_elem_of_here.
  - discriminate.
Defined.

(** ** Facts about the section extractor *)

(** *** The index loops compute the list view *)

Lemma drop_lookup_cons (lines : list string) j l :
  lines !! j = Some l → drop j lines = l :: drop (S j) lines.
Proof. intros H. by apply drop_S. Qed.

Lemma drop_lookup_nil (lines : list string) j :
  lines !! j = None → drop j lines = [].
Proof. intros H. apply drop_ge. by apply lookup_ge_None. Qed.

Lemma skip_loop_drop lines fuel j :
  (length lines ≤ j + fuel)%nat →
  drop (skip_loop lines fuel j) lines = skip_front_matter (drop j lines).
Proof.
  revert j. induction fuel as [|fuel IH]; intros j Hfuel; cbn [skip_loop].
  - by rewrite drop_ge by lia.
  - destruct (lines !! j) as [l|] eqn:Hj.
    + rewrite (drop_lookup_cons lines j l Hj). cbn [skip_front_matter].
      destruct (is_delim l).
      * by apply drop_lookup_cons.
      * apply IH. lia.
    + by rewrite (drop_lookup_nil lines j Hj).
Qed.

Lemma next_section_starts_drop lines j :
  next_section_starts lines j = at_boundary (drop j lines).
Proof.
  unfold next_section_starts.
  destruct (lines !! j) as [l|] eqn:Hj.
  - rewrite (drop_lookup_cons lines j l Hj).
    destruct (lines !! S j) as [n|] eqn:Hn.
    + by rewrite (drop_lookup_cons lines (S j) n Hn).
    + by rewrite (drop_lookup_nil lines (S j) Hn).
  - by rewrite (drop_lookup_nil lines j Hj).
Qed.

Lemma collect_loop_drop lines fuel j acc :
  (length lines ≤ j + fuel)%nat →
  collect_loop lines fuel j acc = (acc ++ collect_body (drop j lines))%list.
Proof.
  revert j acc.
  induction fuel as [|fuel IH]; intros j acc Hfuel; cbn [collect_loop].
  - rewrite drop_ge by lia. by rewrite app_nil_r.
  - rewrite next_section_starts_drop.
    destruct (lines !! j) as [l|] eqn:Hj.
    + rewrite (drop_lookup_cons lines j l Hj).
      cbn [collect_body].
      destruct (at_boundary (l :: drop (S j) lines)).
      * by rewrite app_nil_r.
      * rewrite IH by lia. by rewrite <- app_assoc.
    + rewrite (drop_lookup_nil lines j Hj). by rewrite app_nil_r.
Qed.

Lemma scan_loop_drop lines ttl fuel i :
  (length lines ≤ i + fuel)%nat →
  scan_loop lines ttl fuel i = find_from ttl (drop i lines).
Proof.
  revert i. induction fuel as [|fuel IH]; intros i Hfuel; cbn [scan_loop].
  - by rewrite drop_ge by lia.
  - destruct (lines !! i) as [raw|] eqn:Hi.
    + rewrite (drop_lookup_cons lines i raw Hi). cbn [find_from].
      destruct (is_title_line ttl raw); [|apply IH; lia].
      rewrite collect_loop_drop by lia. cbn [app].
      do 3 f_equal.
      rewrite <- skip_loop_drop with (fuel := length lines) by lia.
      generalize (skip_loop lines (length lines) (S i)). intros k.
      destruct (lines !! k) as [l|] eqn:Hk.
      * by rewrite (drop_lookup_cons lines k l Hk).
      * rewrite (drop_lookup_nil lines k Hk). apply drop_ge.
        apply lookup_ge_None in Hk. lia.
    + by rewrite (drop_lookup_nil lines i Hi).
Qed.

(** The finder, with its fuel, is the scan of the list of lines. *)
Lemma find_section_content_list_view docs ttl :
  _find_section_content docs ttl = find_from ttl (split_nl docs).
Proof.
  unfold _find_section_content. cbv zeta.
  rewrite scan_loop_drop by lia. by rewrite drop_0.
Qed.

(** *** The list view *)

Lemma skip_front_matter_app fm close after :
  Forall (λ l, is_delim l = false) fm →
  is_delim close = true →
  skip_front_matter (fm ++ close :: after) = close :: after.
Proof.
  intros Hfm Hc. induction Hfm as [|l fm Hl _ IH]; simpl.
  - by rewrite Hc.
  - by rewrite Hl.
Qed.

Lemma skip_front_matter_none ls :
  Forall (λ l, is_delim l = false) ls → skip_front_matter ls = [].
Proof. induction 1 as [|l ls Hl _ IH]; simpl; [done|]. by rewrite Hl. Qed.

Lemma collect_body_unfold l ls :
  collect_body (l :: ls)
  = if at_boundary (l :: ls) then [] else l :: collect_body ls.
Proof. reflexivity. Qed.

Lemma collect_body_take after k :
  first_boundary_at after k → collect_body after = take k after.
Proof.
  revert after. induction k as [|k IH]; intros after [Hk Hlt].
  - destruct after as [|l ls]; [done|].
    rewrite collect_body_unfold. rewrite drop_0 in Hk. by rewrite Hk.
  - destruct after as [|l ls]; [done|].
    rewrite collect_body_unfold.
    specialize (Hlt 0 ltac:(lia)) as H0. rewrite drop_0 in H0. rewrite H0.
    cbn [take]. f_equal. apply IH. split; [exact Hk|].
    intros k' Hk'. apply (Hlt (S k')). lia.
Qed.

Lemma collect_body_at_boundary ls : at_boundary ls = true → collect_body ls = [].
Proof.
  intros H. apply (collect_body_take ls 0). split; [by rewrite drop_0|lia].
Qed.

(** With no boundary ahead the loop runs to the end of the document. *)
Lemma collect_body_no_boundary ls :
  (∀ k, at_boundary (drop k ls) = false) → collect_body ls = ls.
Proof.
  induction ls as [|l ls IH]; intros Hno; [done|].
  rewrite collect_body_unfold.
  specialize (Hno 0) as H0. rewrite drop_0 in H0. rewrite H0.
  f_equal. apply IH. intros k. apply (Hno (S k)).
Qed.

Lemma find_from_first ttl pre tl rest :
  Forall (λ l, is_title_line ttl l = false) pre →
  is_title_line ttl tl = true →
  find_from ttl (pre ++ tl :: rest)
  = Some (join_nl (collect_body (tail (skip_front_matter rest)))).
Proof.
  intros Hpre Htl. induction Hpre as [|l pre Hl _ IH]; simpl.
  - by rewrite Htl.
  - by rewrite Hl.
Qed.

Lemma find_from_none ttl ls :
  Forall (λ l, is_title_line ttl l = false) ls → find_from ttl ls = None.
Proof. induction 1 as [|l ls Hl _ IH]; simpl; [done|]. by rewrite Hl. Qed.

Lemma filter_nil_Forall {A} (f : A → bool) (l : list A) :
  List.filter f l = [] → Forall (λ x, f x = false) l.
Proof.
  induction l as [|x l IH]; simpl; [constructor|].
  destruct (f x) eqn:Hx; [discriminate|]. intros H. constructor; auto.
Qed.

(** A title line that occurs exactly once is the first one. *)
Lemma once_is_first ttl pre tl rest :
  count_title_lines ttl (pre ++ tl :: rest) = 1 →
  is_title_line ttl tl = true →
  Forall (λ l, is_title_line ttl l = false) pre.
Proof.
  unfold count_title_lines. intros Hc Htl.
  rewrite List.filter_app, length_app in Hc. simpl in Hc.
  rewrite Htl in Hc. simpl in Hc.
  apply filter_nil_Forall. apply length_zero_iff_nil. lia.
Qed.

(** Matching ignores the letter case of the requested title. *)
Lemma find_section_content_lower docs t t' :
  lower t = lower t' →
  _find_section_content docs t = _find_section_content docs t'.
Proof.
  intros Hl. rewrite !find_section_content_list_view.
  induction (split_nl docs) as [|l ls IH]; simpl; [done|].
  unfold is_title_line. by rewrite Hl, IH.
Qed.

Lemma extract_step_entry find docs m t :
  extract_step find docs m t = Return (<[t := entry_of find docs t]> m).
Proof.
  unfold extract_step, entry_of.
  destruct (find docs t) as [sc|e]; simpl; [|done].
  by destruct (truthy sc).
Qed.

Lemma for_each_extract find docs titles (m0 : gmap string string) :
  ∃ m, for_each (extract_step find docs) titles m0 = Return m
    ∧ ∀ t, m !! t = if decide (t ∈ titles)
                    then Some (entry_of find docs t) else m0 !! t.
Proof.
  revert m0. induction titles as [|x xs IH]; intros m0.
  - exists m0. split; [done|]. intros t. case_decide as H; [|done].
    by apply elem_of_nil in H.
  - cbn [for_each]. rewrite extract_step_entry.
    destruct (IH (<[x := entry_of find docs x]> m0)) as (m & Hm & Hl).
    exists m. split; [exact Hm|]. intros t. rewrite Hl.
    destruct (decide (t ∈ xs)) as [Hin|Hin].
    + rewrite decide_True; [done|]. by apply elem_of_cons; right.
    + destruct (decide (x = t)) as [->|Hne].
      * rewrite lookup_insert_eq. rewrite decide_True; [done|].
        apply list_elem_of_here.
      * rewrite lookup_insert_ne by done. rewrite decide_False; [done|].
        intros [->|?]%elem_of_cons; done.
Qed.

(** The extractor always returns, and maps exactly the requested titles. *)
Lemma extract_sections_with_lookup find docs titles :
  ∃ m, extract_sections_with find docs titles = Return m
    ∧ ∀ t, m !! t = if decide (t ∈ titles)
                    then Some (entry_of find docs t) else None.
Proof.
  destruct (for_each_extract find docs titles ∅) as (m & Hm & Hl).
  exists m. split; [exact Hm|]. intros t. rewrite Hl.
  by rewrite lookup_empty.
Qed.

(** One entry per distinct requested title. *)
Lemma extract_sections_with_size find docs titles m :
  extract_sections_with find docs titles = Return m →
  NoDup titles →
  size m = length titles.
Proof.
  intros Hm Hnd.
  destruct (extract_sections_with_lookup find docs titles) as (m' & Hm' & Hl).
  rewrite Hm in Hm'. injection Hm' as <-.
  rewrite <- (size_dom (D := gset string)).
  rewrite <- (size_list_to_set (C := gset string) titles) by done.
  f_equal. apply set_eq. intros t.
  rewrite elem_of_dom, elem_of_list_to_set, Hl.
  case_decide; split; intros H'; try done; by destruct H'.
Qed.

Lemma prefix_append t b : String.prefix t (t ++ b) = true.
Proof.
  induction t as [|c t IH]; simpl; [by destruct b|].
  by destruct (ascii_dec c c).
Qed.

Lemma contains_unfold needle hay :
  contains needle hay
  = String.prefix needle hay
    || match hay with
       | EmptyString => false
       | String _ hay' => contains needle hay'
       end.
Proof. by destruct hay. Qed.

(** [t in a + t + b] *)
Lemma contains_infix a t b : contains t (a ++ t ++ b) = true.
Proof.
  induction a as [|c a IH].
  - change ("" ++ t ++ b) with (t ++ b).
    rewrite contains_unfold. by rewrite prefix_append.
  - change (String c a ++ t ++ b) with (String c (a ++ t ++ b)).
    rewrite contains_unfold. cbv iota beta. rewrite IH. apply orb_true_r.
Qed.

Lemma append_cons c s t : String c s ++ t = String c (s ++ t).
Proof. reflexivity. Qed.

Lemma append_empty_r s : s ++ "" = s.
Proof. induction s as [|c s IH]; [done|]. by rewrite append_cons, IH. Qed.

Lemma append_assoc a b c : (a ++ b) ++ c = a ++ b ++ c.
Proof. induction a as [|x a IH]; [done|]. by rewrite !append_cons, IH. Qed.

Lemma not_found_msg_contains ttl : contains ttl (not_found_msg ttl) = true.
Proof. apply contains_infix. Qed.

Lemma error_msg_contains ttl e : contains (exn_msg e) (error_msg ttl e) = true.
Proof.
  unfold error_msg.
  rewrite <- (append_empty_r (exn_msg e)) at 2.
  rewrite <- !append_assoc. rewrite append_assoc. apply contains_infix.
Qed.

(** ** Theorems on the section extractor *)

(** C1: when the requested title heads exactly one line of the document,
    that line is followed by front-matter lines up to a closing [---], and
    position [k] after the closing line is the first section boundary, the
    content is the [k] lines between the closing line and the boundary, joined
    with newlines; neither delimiter is part of it. *)
Theorem find_section_content_body docs ttl pre tl fm close after k :
  split_nl docs = (pre ++ tl :: fm ++ close :: after)%list →
  is_title_line ttl tl = true →
  count_title_lines ttl (split_nl docs) = 1 →
  Forall (λ l, is_delim l = false) fm →
  is_delim close = true →
  first_boundary_at after k →
  _find_section_content docs ttl = Some (join_nl (take k after)).
Proof.
  intros Hsplit Htl Hone Hfm Hclose Hk.
  rewrite find_section_content_list_view. rewrite Hsplit in Hone |- *.
  rewrite (find_from_first ttl pre tl); [|by eapply once_is_first|done].
  rewrite skip_front_matter_app by done. cbn [tail].
  by rewrite (collect_body_take after k).
Qed.

Lemma find_section_content_body_witness :
  _find_section_content two_section_docs "installation"
  = Some ("Run the installer." ++ nl ++ "---" ++ nl ++ "Then log in.").
Proof.
  apply (find_section_content_body two_section_docs "installation"
           ["---"] "title: Installation" ["sidebar_position: 1"] "---"
           ["Run the installer."; "---"; "Then log in."; "---"; "";
            "---"; "title: Quickstart"; "---"; "Open a dashboard."; "---"; ""]
           3).
  - vm_compute. reflexivity.
  - vm_compute. reflexivity.
  - vm_compute. reflexivity.
  - repeat constructor.
  - vm_compute. reflexivity.
  - split; [vm_compute; reflexivity|].
    intros k' Hk'.
    destruct k' as [|[|[|k']]]; [vm_compute; reflexivity ..|lia].
Defined.

(** Past a closed front matter with no boundary ahead, the content runs to
    the end of the document. *)
Lemma find_section_content_to_end docs ttl pre tl fm close after :
  split_nl docs = (pre ++ tl :: fm ++ close :: after)%list →
  Forall (λ l, is_title_line ttl l = false) pre →
  is_title_line ttl tl = true →
  Forall (λ l, is_delim l = false) fm →
  is_delim close = true →
  (∀ k, at_boundary (drop k after) = false) →
  _find_section_content docs ttl = Some (join_nl after).
Proof.
  intros Hsplit Hpre Htl Hfm Hclose Hno.
  rewrite find_section_content_list_view. rewrite Hsplit.
  rewrite (find_from_first ttl pre tl) by done.
  rewrite skip_front_matter_app by done. cbn [tail].
  by rewrite collect_body_no_boundary.
Qed.

(** C5: a requested title that heads no line of the document is mapped to
    the not-found placeholder, which is a function of the title alone and
    contains it; the extractor returns. *)
Theorem extract_absent_title docs titles ttl :
  Forall (λ l, is_title_line ttl l = false) (split_nl docs) →
  ttl ∈ titles →
  ∃ m, _extract_sections_from_docs docs titles = Return m
    ∧ m !! ttl = Some (not_found_msg ttl)
    ∧ contains ttl (not_found_msg ttl) = true.
Proof.
  intros Habs Hin.
  destruct (extract_sections_with_lookup call_find docs titles)
    as (m & Hm & Hl).
  exists m. split; [exact Hm|]. split; [|apply not_found_msg_contains].
  rewrite Hl, decide_True by done.
  unfold entry_of, call_find. rewrite find_section_content_list_view.
  by rewrite find_from_none.
Qed.

Lemma extract_absent_title_witness :
  ∃ m, _extract_sections_from_docs two_section_docs
         ["Quickstart"; "Pricing"] = Return m
    ∧ m !! "Pricing" = Some (not_found_msg "Pricing")
    ∧ contains "Pricing" (not_found_msg "Pricing") = true.
Proof.
  apply (extract_absent_title two_section_docs ["Quickstart"; "Pricing"]
           "Pricing").
  - vm_compute. repeat constructor.
  - apply elem_of_cons. right. apply list_elem_of_here.
Defined.

(** C6: for any callee, a title whose lookup raises is mapped to the error
    placeholder carrying the error description, and every other title is
    mapped as in the call without the failing title. *)
Theorem extract_failure_isolated find docs titles bad e :
  find docs bad = Raise e →
  bad ∈ titles →
  ∃ m m',
    extract_sections_with find docs titles = Return m
    ∧ extract_sections_with find docs (filter (λ t, t ≠ bad) titles)
      = Return m'
    ∧ m !! bad = Some (error_msg bad e)
    ∧ contains (exn_msg e) (error_msg bad e) = true
    ∧ ∀ t, t ≠ bad → m !! t = m' !! t.
Proof.
  intros Hbad Hin.
  destruct (extract_sections_with_lookup find docs titles) as (m & Hm & Hl).
  destruct (extract_sections_with_lookup find docs
              (filter (λ t, t ≠ bad) titles)) as (m' & Hm' & Hl').
  exists m, m'. repeat split; [exact Hm|exact Hm'| |apply error_msg_contains|].
  - rewrite Hl, decide_True by done. unfold entry_of. by rewrite Hbad.
  - intros t Hne. rewrite Hl, Hl'.
    destruct (decide (t ∈ titles)) as [Ht|Ht].
    + rewrite decide_True; [done|]. by apply list_elem_of_filter.
    + rewrite decide_False; [done|]. by intros [_ ?]%list_elem_of_filter.
Qed.

Lemma extract_failure_isolated_witness :
  ∃ m m',
    extract_sections_with failing_find two_section_docs
      ["Broken"; "Quickstart"] = Return m
    ∧ extract_sections_with failing_find two_section_docs
        (filter (λ t, t ≠ "Broken") ["Broken"; "Quickstart"]) = Return m'
    ∧ m !! "Broken"
      = Some (error_msg "Broken"
                {| exn_type := "RuntimeError"; exn_msg := "boom";
                   exn_traceback := "" |})
    ∧ contains "boom"
        (error_msg "Broken"
           {| exn_type := "RuntimeError"; exn_msg := "boom";
              exn_traceback := "" |}) = true
    ∧ ∀ t, t ≠ "Broken" → m !! t = m' !! t.
Proof.
  apply (extract_failure_isolated failing_find two_section_docs
           ["Broken"; "Quickstart"] "Broken").
  - vm_compute. reflexivity.
  - apply list_elem_of_here.
Defined.

(** C9: when the first line headed by the requested title is followed by a
    closing [---] that is itself followed at once by a section boundary, or
    that is the last line, or by no closing [---] at all, the content found
    is the empty string and the extractor maps the title to the not-found
    placeholder. *)
Theorem empty_body_reported_not_found docs titles ttl pre tl rest :
  split_nl docs = (pre ++ tl :: rest)%list →
  Forall (λ l, is_title_line ttl l = false) pre →
  is_title_line ttl tl = true →
  (∃ fm close after,
      rest = (fm ++ close :: after)%list
      ∧ Forall (λ l, is_delim l = false) fm ∧ is_delim close = true
      ∧ (at_boundary after = true ∨ after = []))
  ∨ Forall (λ l, is_delim l = false) rest →
  ttl ∈ titles →
  _find_section_content docs ttl = Some ""
  ∧ ∃ m, _extract_sections_from_docs docs titles = Return m
      ∧ m !! ttl = Some (not_found_msg ttl).
Proof.
  intros Hsplit Hpre Htl Hcases Hin.
  assert (Hfind : _find_section_content docs ttl = Some "").
  { rewrite find_section_content_list_view. rewrite Hsplit.
    rewrite (find_from_first ttl pre tl) by done.
    destruct Hcases as [(fm & close & after & -> & Hfm & Hc & Hafter)|Hnone].
    - rewrite skip_front_matter_app by done. cbn [tail].
      destruct Hafter as [Hb| ->]; [|done].
      by rewrite collect_body_at_boundary.
    - by rewrite skip_front_matter_none. }
  split; [exact Hfind|].
  destruct (extract_sections_with_lookup call_find docs titles)
    as (m & Hm & Hl).
  exists m. split; [exact Hm|].
  rewrite Hl, decide_True by done.
  unfold entry_of, call_find. by rewrite Hfind.
Qed.

Lemma empty_body_reported_not_found_witness :
  _find_section_content empty_body_docs "Changelog" = Some ""
  ∧ ∃ m, _extract_sections_from_docs empty_body_docs ["Changelog"] = Return m
      ∧ m !! "Changelog" = Some (not_found_msg "Changelog").
Proof.
  apply (empty_body_reported_not_found empty_body_docs ["Changelog"]
           "Changelog" ["---"] "title: Changelog"
           ["---"; "---"; ""; "---"; "title: Quickstart"; "---";
            "Open a dashboard."; "---"; ""]).
  - vm_compute. reflexivity.
  - repeat constructor.
  - vm_compute. reflexivity.
  - left. exists [], "---",
      ["---"; ""; "---"; "title: Quickstart"; "---"; "Open a dashboard.";
       "---"; ""].
    split; [reflexivity|]. split; [constructor|].
    split; [vm_compute; reflexivity|]. left. vm_compute. reflexivity.
  - apply list_elem_of_here.
Defined.

(** ** Facts about the operation layer *)

Lemma attach_urls_spec (umap cs : gmap string string) :
  (∀ t, attach_urls umap cs !! t = with_url umap t <$> cs !! t)
  ∧ size (attach_urls umap cs) = size cs.
Proof.
  unfold attach_urls.
  apply (map_fold_weak_ind
           (λ (r : gmap string (gmap string string)) (m : gmap string string),
              (∀ t, r !! t = with_url umap t <$> m !! t) ∧ size r = size m)).
  - split; [|done]. intros t. by rewrite !lookup_empty.
  - intros i x m r Hi [Hl Hs]. split.
    + intros t. destruct (decide (i = t)) as [->|Hne].
      * by rewrite !lookup_insert_eq.
      * by rewrite !lookup_insert_ne.
    + rewrite !map_size_insert_None; [by rewrite Hs|done|].
      by rewrite Hl, Hi.
Qed.

Lemma url_map_fold_absent (parsed : list section) (m0 : gmap string string) t :
  (∀ d, d ∈ parsed → title d ≠ t) →
  fold_left (λ m s, <[title s := url s]> m) parsed m0 !! t = m0 !! t.
Proof.
  revert m0. induction parsed as [|d ds IH]; intros m0 Habs; [done|].
  cbn [fold_left]. rewrite IH.
  - apply lookup_insert_ne, Habs, list_elem_of_here.
  - intros d' Hd'. apply Habs. by apply elem_of_cons; right.
Qed.

Lemma url_map_absent parsed t :
  (∀ d, d ∈ parsed → title d ≠ t) → url_map parsed !! t = None.
Proof.
  intros Habs. unfold url_map.
  by rewrite url_map_fold_absent, lookup_empty.
Qed.

(** The response of a fetch whose two documents arrive. *)
Lemma fetch_served get toc_r docs_r titles q :
  get TOC_URL = Return toc_r →
  raise_for_status toc_r = Return tt →
  get FULL_DOCS_URL = Return docs_r →
  raise_for_status docs_r = Return tt →
  ∃ cs, _extract_sections_from_docs (text docs_r) titles = Return cs
    ∧ _fetch_content_async get titles q
      = Return (fetch_payload (text toc_r) q cs).
Proof.
  intros Ht Hts Hd Hds.
  destruct (extract_sections_with_lookup call_find (text docs_r) titles)
    as (cs & Hcs & _).
  exists cs. split; [exact Hcs|].
  unfold _fetch_content_async, fetch_body.
  rewrite Ht. cbn [mbind outcome_bind]. rewrite Hts. cbn [mbind outcome_bind].
  rewrite Hd. cbn [mbind outcome_bind]. rewrite Hds. cbn [mbind outcome_bind].
  unfold _extract_sections_from_docs in Hcs |- *. rewrite Hcs.
  reflexivity.
Qed.

(** ** Theorems on the operation layer *)

(** C2: both operations return for every remote side, titles and query; when
    the body of the [try] raises [e], what is returned is the structured
    failure: [success] false, the description, type name and traceback of
    [e], the query, and an empty [raw_toc_content] (an empty
    [extracted_content] for the fetch). *)
Theorem operations_never_raise get titles q :
  (∃ r, _identify_sections_async get q = Return r)
  ∧ (∃ r, _fetch_content_async get titles q = Return r)
  ∧ (∀ e, identify_body get q = Raise e →
       _identify_sections_async get q
       = Return {[ "success" := VBool false;
                   "error" := VStr (exn_msg e);
                   "error_type" := VStr (exn_type e);
                   "traceback" := VStr (exn_traceback e);
                   "query" := VStr q;
                   "raw_toc_content" := VStr "" ]})
  ∧ (∀ e, fetch_body get titles q = Raise e →
       _fetch_content_async get titles q
       = Return {[ "success" := VBool false;
                   "error" := VStr (exn_msg e);
                   "error_type" := VStr (exn_type e);
                   "traceback" := VStr (exn_traceback e);
                   "user_query" := VStr q;
                   "extracted_content" := VSections ∅ ]}).
Proof.
  unfold _identify_sections_async, _fetch_content_async.
  repeat split.
  - destruct (identify_body get q); simpl; eauto.
  - destruct (fetch_body get titles q); simpl; eauto.
  - by intros e ->.
  - by intros e ->.
Qed.

Lemma operations_never_raise_witness :
  _identify_sections_async unreachable_get "copilot features"
  = Return {[ "success" := VBool false;
              "error" := VStr "All connection attempts failed";
              "error_type" := VStr "ConnectError";
              "traceback" := VStr "Traceback (most recent call last): ...";
              "query" := VStr "copilot features";
              "raw_toc_content" := VStr "" ]}
  ∧ _fetch_content_async unreachable_get ["Copilot Basics"] "copilot features"
    = Return {[ "success" := VBool false;
                "error" := VStr "All connection attempts failed";
                "error_type" := VStr "ConnectError";
                "traceback" := VStr "Traceback (most recent call last): ...";
                "user_query" := VStr "copilot features";
                "extracted_content" := VSections ∅ ]}.
Proof.
  destruct (operations_never_raise unreachable_get ["Copilot Basics"]
              "copilot features") as (_ & _ & Hi & Hf).
  split.
  - apply (Hi connect_error). reflexivity.
  - apply (Hf connect_error). reflexivity.
Defined.

(** C4: when both documents arrive, [sections_found] is the number of
    entries of [extracted_content], which has an entry for each requested
    title, found or not; with one title found and one title that heads no
    line, it is 2, and the entry of the second holds the not-found
    placeholder. *)
Theorem sections_found_counts_entries get toc_r docs_r titles q :
  get TOC_URL = Return toc_r →
  raise_for_status toc_r = Return tt →
  get FULL_DOCS_URL = Return docs_r →
  raise_for_status docs_r = Return tt →
  ∃ r ec,
    _fetch_content_async get titles q = Return r
    ∧ r !! "extracted_content" = Some (VSections ec)
    ∧ r !! "sections_found" = Some (VInt (size ec))
    ∧ (∀ t, t ∈ titles ↔ is_Some (ec !! t))
    ∧ ∀ t1 t2 body,
        titles = [t1; t2] ∨ titles = [t2; t1] →
        _find_section_content (text docs_r) t1 = Some body →
        body ≠ "" →
        _find_section_content (text docs_r) t2 = None →
        size ec = 2
        ∧ ec !! t1
          = Some (with_url (url_map (_parse_toc (text toc_r) None)) t1 body)
        ∧ ec !! t2
          = Some (with_url (url_map (_parse_toc (text toc_r) None)) t2
                    (not_found_msg t2)).
Proof.
  intros Ht Hts Hd Hds.
  destruct (fetch_served get toc_r docs_r titles q Ht Hts Hd Hds)
    as (cs & Hcs & Hr).
  destruct (attach_urls_spec (url_map (_parse_toc (text toc_r) None)) cs)
    as [Hl Hs].
  destruct (extract_sections_with_lookup call_find (text docs_r) titles)
    as (cs' & Hcs' & Hlk).
  unfold _extract_sections_from_docs in Hcs.
  rewrite Hcs in Hcs'. injection Hcs' as <-.
  eexists _, _. split; [exact Hr|].
  split; [reflexivity|]. split; [by rewrite Hs|]. split.
  - intros t. rewrite Hl, Hlk, fmap_is_Some.
    case_decide; split; intros H'; try done; by destruct H'.
  - intros t1 t2 body Htitles H1 Hbody H2.
    assert (Hne : t1 ≠ t2) by (intros ->; congruence).
    apply String.eqb_neq in Hbody.
    assert (Hnd : NoDup titles).
    { destruct Htitles as [-> | ->]; apply NoDup_cons;
        (split; [by intros ->%list_elem_of_singleton|apply NoDup_singleton]). }
    assert (Hin : t1 ∈ titles ∧ t2 ∈ titles).
    { destruct Htitles as [-> | ->]; split;
        (apply list_elem_of_here
         || apply list_elem_of_further, list_elem_of_here). }
    destruct Hin as [Hin1 Hin2].
    rewrite Hs, (extract_sections_with_size _ _ _ _ Hcs Hnd).
    split; [by destruct Htitles as [-> | ->]|].
    rewrite !Hl, !Hlk, !decide_True by done.
    unfold entry_of, call_find. rewrite H1, H2.
    cbn [truthy default]. by rewrite Hbody.
Qed.

Lemma sections_found_counts_entries_witness :
  ∃ r ec,
    _fetch_content_async (serving_get plain_setup_toc two_section_docs)
      ["Quickstart"; "Pricing"] "how to start" = Return r
    ∧ r !! "extracted_content" = Some (VSections ec)
    ∧ r !! "sections_found" = Some (VInt (size ec))
    ∧ size ec = 2
    ∧ ec !! "Pricing"
      = Some (with_url (url_map (_parse_toc plain_setup_toc None)) "Pricing"
                (not_found_msg "Pricing")).
Proof.
  destruct (sections_found_counts_entries
              (serving_get plain_setup_toc two_section_docs)
              {| raise_for_status := Return tt; text := plain_setup_toc |}
              {| raise_for_status := Return tt; text := two_section_docs |}
              ["Quickstart"; "Pricing"] "how to start")
    as (r & ec & Hr & Hec & Hn & _ & Hpart); try reflexivity.
  exists r, ec. repeat split; [exact Hr|exact Hec|exact Hn| |].
  - apply (Hpart "Quickstart" "Pricing" "Open a dashboard.");
      [left; reflexivity|vm_compute; reflexivity|discriminate
      |vm_compute; reflexivity].
  - apply (Hpart "Quickstart" "Pricing" "Open a dashboard.");
      [left; reflexivity|vm_compute; reflexivity|discriminate
      |vm_compute; reflexivity].
Defined.

(** C10: a requested title that equals a TOC title up to letter case, and
    that no TOC entry has as its title, gets the body found under the TOC
    title together with the url ["URL not found"]. *)
Theorem case_variant_title_url_not_found
    get toc_r docs_r titles q d ttl body :
  get TOC_URL = Return toc_r →
  raise_for_status toc_r = Return tt →
  get FULL_DOCS_URL = Return docs_r →
  raise_for_status docs_r = Return tt →
  d ∈ _parse_toc (text toc_r) None →
  lower ttl = lower (title d) →
  (∀ d', d' ∈ _parse_toc (text toc_r) None → title d' ≠ ttl) →
  _find_section_content (text docs_r) (title d) = Some body →
  body ≠ "" →
  ttl ∈ titles →
  ∃ r ec,
    _fetch_content_async get titles q = Return r
    ∧ r !! "extracted_content" = Some (VSections ec)
    ∧ ec !! ttl = Some {[ "url" := "URL not found"; "content" := body ]}.
Proof.
  intros Ht Hts Hd Hds _ Hlow Habs Hfind Hbody Hin.
  destruct (fetch_served get toc_r docs_r titles q Ht Hts Hd Hds)
    as (cs & Hcs & Hr).
  destruct (attach_urls_spec (url_map (_parse_toc (text toc_r) None)) cs)
    as [Hl _].
  destruct (extract_sections_with_lookup call_find (text docs_r) titles)
    as (cs' & Hcs' & Hlk).
  unfold _extract_sections_from_docs in Hcs. rewrite Hcs in Hcs'.
  injection Hcs' as <-.
  eexists _, _. split; [exact Hr|]. split; [reflexivity|].
  rewrite Hl, Hlk, decide_True by done.
  unfold entry_of, call_find.
  rewrite (find_section_content_lower _ ttl (title d)) by done.
  rewrite Hfind. cbn [truthy default fmap option_fmap option_map].
  apply String.eqb_neq in Hbody. rewrite Hbody. cbn [negb].
  unfold with_url. by rewrite url_map_absent.
Qed.

Lemma case_variant_title_url_not_found_witness :
  ∃ r ec,
    _fetch_content_async (serving_get plain_setup_toc two_section_docs)
      ["quickstart"] "how to start" = Return r
    ∧ r !! "extracted_content" = Some (VSections ec)
    ∧ ec !! "quickstart"
      = Some {[ "url" := "URL not found"; "content" := "Open a dashboard." ]}.
Proof.
  apply (case_variant_title_url_not_found
           (serving_get plain_setup_toc two_section_docs)
           {| raise_for_status := Return tt; text := plain_setup_toc |}
           {| raise_for_status := Return tt; text := two_section_docs |}
           ["quickstart"] "how to start"
           (descriptor "Setup" "Quickstart" "https://x/quick")
           "quickstart" "Open a dashboard.");
    try reflexivity.
  - vm_compute. apply list_elem_of_further, list_elem_of_here.
  - intros d' Hd'. vm_compute in Hd'.
    apply elem_of_cons in Hd' as [->|Hd']; [discriminate|].
    apply elem_of_cons in Hd' as [->|Hd']; [discriminate|].
    by apply elem_of_nil in Hd'.
  - discriminate.
  - apply list_elem_of_here.
Defined.

(** * Further properties of the code *)

(** ** The TOC parser, line by line *)

(** What one line does to the loop state. *)
Lemma parse_line_cases query cat secs raw :
  (is_link_item raw = false ∧ snd (parse_line query (cat, secs) raw) = secs)
  ∨ (is_link_item raw = true
     ∧ ∃ g1 g2, link_search (strip raw) = Some (g1, g2)
         ∧ parse_line query (cat, secs) raw
           = (cat,
              if filtered_out query (strip g1) cat then secs
              else (secs ++ [descriptor cat (strip g1) (strip g2)])%list)).
Proof.
  unfold parse_line, is_link_item.
  destruct (String.eqb (strip raw) "") eqn:He.
  - apply String.eqb_eq in He. rewrite He. by left.
  - destruct (is_list_item (strip raw)) eqn:Hli; cbn [negb andb].
    + destruct (link_search (strip raw)) as [[g1 g2]|] eqn:Hs; [|by left].
      right. split; [done|]. exists g1, g2. split; [done|].
      by destruct (filtered_out query (strip g1) cat).
    + left. split; [done|]. by case_match.
Qed.

(** The category after a line does not depend on the query. *)
Lemma parse_line_category query cat secs secs' raw :
  fst (parse_line query (cat, secs) raw)
  = fst (parse_line None (cat, secs') raw).
Proof.
  unfold parse_line.
  repeat (case_match; simplify_eq; cbn [fst]; try done).
Qed.

Lemma parse_line_passed_over query st raw :
  is_passed_over raw = true → parse_line query st raw = st.
Proof.
  destruct st as [cat secs]. unfold is_passed_over, parse_line. cbv zeta.
  destruct (String.eqb (strip raw) "") eqn:He; [done|].
  destruct (is_list_item (strip raw)) eqn:Hli; cbn [negb andb orb].
  - by destruct (link_search (strip raw)) as [[g1 g2]|].
  - rewrite orb_false_r. intros [H|H]%orb_prop; rewrite H; cbn [negb andb];
      [done|]. by rewrite andb_false_r.
Qed.

Lemma parse_fold_length query ls cat secs :
  (length (snd (fold_left (parse_line query) ls (cat, secs)))
   ≤ length secs + length (List.filter is_link_item ls))%nat
  ∧ length (snd (fold_left (parse_line None) ls (cat, secs)))
    = (length secs + length (List.filter is_link_item ls))%nat.
Proof.
  revert cat secs. induction ls as [|l ls IH]; intros cat secs.
  - cbn. split; lia.
  - cbn [fold_left List.filter].
    destruct (parse_line_cases query cat secs l)
      as [[Hl Hq]|[Hl (g1 & g2 & Hs & Hq)]];
    destruct (parse_line_cases None cat secs l)
      as [[Hl' Hn]|[Hl' (h1 & h2 & Hs' & Hn)]]; try congruence;
    rewrite Hl.
    + destruct (parse_line query (cat, secs) l) as [c1 s1].
      destruct (parse_line None (cat, secs) l) as [c2 s2].
      cbn [snd] in Hq, Hn. subst s1 s2.
      destruct (IH c1 secs) as [H1 _]. destruct (IH c2 secs) as [_ H2].
      split; [exact H1|exact H2].
    + rewrite Hq, Hn. cbn [filtered_out length].
      destruct (IH cat (if filtered_out query (strip g1) cat then secs
                        else (secs ++ [descriptor cat (strip g1) (strip g2)])%list))
        as [H1 _].
      destruct (IH cat (secs ++ [descriptor cat (strip h1) (strip h2)])%list)
        as [_ H2].
      rewrite length_app in H2. cbn [length] in H2.
      split; [|lia].
      destruct (filtered_out query (strip g1) cat);
        [|rewrite length_app in H1; cbn [length] in H1]; lia.
Qed.

Lemma parse_fold_filter query ls cat secs :
  fold_left (parse_line query) ls (cat, List.filter (passes_query query) secs)
  = (fst (fold_left (parse_line None) ls (cat, secs)),
     List.filter (passes_query query)
       (snd (fold_left (parse_line None) ls (cat, secs)))).
Proof.
  revert cat secs. induction ls as [|l ls IH]; intros cat secs; [done|].
  cbn [fold_left].
  destruct (parse_line_cases query cat (List.filter (passes_query query) secs) l)
    as [[Hl Hq]|[Hl (g1 & g2 & Hs & Hq)]];
  destruct (parse_line_cases None cat secs l)
    as [[Hl' Hn]|[Hl' (h1 & h2 & Hs' & Hn)]]; try congruence.
  - pose proof (parse_line_category query cat
                  (List.filter (passes_query query) secs) secs l) as Hc.
    destruct (parse_line query _ l) as [c1 s1].
    destruct (parse_line None (cat, secs) l) as [c2 s2].
    cbn [fst snd] in *. subst. apply IH.
  - rewrite Hq, Hn. cbn [filtered_out]. rewrite <- IH. f_equal. f_equal.
    rewrite Hs in Hs'. injection Hs' as <- <-.
    rewrite List.filter_app. cbn [List.filter]. unfold passes_query.
    cbn [title category descriptor].
    destruct (filtered_out query (strip g1) cat); cbn [negb];
      [by rewrite app_nil_r|done].
Qed.

Lemma parse_fold_extends query ls st :
  ∃ more, snd (fold_left (parse_line query) ls st) = (snd st ++ more)%list.
Proof.
  revert st. induction ls as [|l ls IH]; intros [cat secs].
  - exists []. by rewrite app_nil_r.
  - cbn [fold_left]. destruct (IH (parse_line query (cat, secs) l)) as [more ->].
    destruct (parse_line_cases query cat secs l)
      as [[_ ->]|[_ (g1 & g2 & _ & ->)]]; [by exists more|].
    cbn [snd]. destruct (filtered_out query (strip g1) cat); [by exists more|].
    eexists. by rewrite <- app_assoc.
Qed.

(** ** Trimming and delimiter characters *)

Lemma contains_char_cons c d s :
  contains (String c "") (String d s)
  = Ascii.eqb c d || contains (String c "") s.
Proof.
  rewrite contains_unfold. cbn [String.prefix].
  destruct (ascii_dec c d) as [->|Hne].
  - rewrite Ascii.eqb_refl. by destruct s.
  - apply Ascii.eqb_neq in Hne. by rewrite Hne.
Qed.

Lemma contains_char_lstrip c s :
  contains (String c "") s = false → contains (String c "") (lstrip s) = false.
Proof.
  induction s as [|d s IH]; [done|]. cbn [lstrip].
  destruct (isspace d); [|done].
  rewrite contains_char_cons. intros [_ H]%orb_false_elim. by apply IH.
Qed.

Lemma contains_char_rstrip c s :
  contains (String c "") s = false → contains (String c "") (rstrip s) = false.
Proof.
  induction s as [|d s IH]; [done|]. cbn [rstrip].
  rewrite contains_char_cons. intros [Hd H]%orb_false_elim.
  specialize (IH H). destruct (rstrip s) as [|e r].
  - destruct (isspace d); [done|]. by rewrite contains_char_cons, Hd.
  - by rewrite contains_char_cons, Hd.
Qed.

Lemma contains_char_strip c s :
  contains (String c "") s = false → contains (String c "") (strip s) = false.
Proof. intros H. by apply contains_char_rstrip, contains_char_lstrip. Qed.

Lemma remove_char_gone c s : contains (String c "") (remove_char c s) = false.
Proof.
  induction s as [|d s IH]; [done|]. cbn [remove_char].
  destruct (Ascii.eqb d c) eqn:Hd; [done|].
  rewrite contains_char_cons, IH, Ascii.eqb_sym, Hd. done.
Qed.

Lemma span_until_free stop s :
  contains (String stop "") (fst (span_until stop s)) = false.
Proof.
  induction s as [|d s IH]; [done|]. cbn [span_until].
  destruct (Ascii.eqb d stop) eqn:Hd; [done|].
  destruct (span_until stop s) as [a b]. cbn [fst] in *.
  rewrite contains_char_cons, IH, Ascii.eqb_sym, Hd. done.
Qed.

Lemma match_link_at_free s g1 g2 :
  match_link_at s = Some (g1, g2) →
  contains "]" g1 = false ∧ contains ")" g2 = false.
Proof.
  unfold match_link_at. intros H.
  destruct s as [|c r]; [done|].
  repeat (case_match; simplify_eq; try done).
  split.
  - pose proof (span_until_free "]" r) as Hf.
    by destruct (span_until "]" r); simplify_eq.
  - match goal with
    | H : span_until ")" ?r2 = (g2, _) |- _ =>
        pose proof (span_until_free ")" r2) as Hf; by rewrite H in Hf
    end.
Qed.

Lemma link_search_free s g1 g2 :
  link_search s = Some (g1, g2) →
  contains "]" g1 = false ∧ contains ")" g2 = false.
Proof.
  induction s as [|c s IH]; rewrite link_search_unfold.
  - done.
  - destruct (match_link_at (String c s)) as [[h1 h2]|] eqn:Hm.
    + intros [= -> ->]. by eapply match_link_at_free.
    + exact IH.
Qed.

Lemma lstrip_head s :
  lstrip s = "" ∨ ∃ c t, lstrip s = String c t ∧ isspace c = false.
Proof.
  induction s as [|c s IH]; [by left|]. cbn [lstrip].
  destruct (isspace c) eqn:Hc; [exact IH|]. right. eauto.
Qed.

Lemma rstrip_head c t :
  isspace c = false → rstrip (String c t) = String c (rstrip t).
Proof. intros Hc. cbn [rstrip]. rewrite Hc. by destruct (rstrip t). Qed.

Lemma rstrip_idempotent s : rstrip (rstrip s) = rstrip s.
Proof.
  induction s as [|c s IH]; [done|]. cbn [rstrip].
  destruct (rstrip s) as [|d r] eqn:Hr.
  - destruct (isspace c) eqn:Hc; [done|]. cbn [rstrip]. by rewrite Hc.
  - change (rstrip (String c (String d r))) with
      (match rstrip (String d r) with
       | "" => if isspace c then "" else String c ""
       | r' => String c r'
       end).
    by rewrite IH.
Qed.

(** [s.strip().strip() == s.strip()] *)
Lemma strip_idempotent s : strip (strip s) = strip s.
Proof.
  unfold strip.
  destruct (lstrip_head s) as [->|(c & t & -> & Hc)]; [done|].
  rewrite (rstrip_head c t Hc). cbn [lstrip]. rewrite Hc.
  rewrite <- (rstrip_head c t Hc). apply rstrip_idempotent.
Qed.

(** ** Invariants of the parser's loop state *)

Lemma parse_line_category_cases query cat secs raw :
  fst (parse_line query (cat, secs) raw) = cat
  ∨ fst (parse_line query (cat, secs) raw)
    = strip (remove_char "#" (strip raw)).
Proof.
  unfold parse_line.
  repeat (case_match; simplify_eq; cbn [fst]; auto).
Qed.

Lemma parse_fold_inv (Q : string → Prop) (P : section → Prop) query ls st :
  (∀ line, Q (strip (remove_char "#" line))) →
  (∀ cat line g1 g2, Q cat → link_search line = Some (g1, g2) →
     P (descriptor cat (strip g1) (strip g2))) →
  Q (fst st) → Forall P (snd st) →
  Forall P (snd (fold_left (parse_line query) ls st)).
Proof.
  intros HQ HP. revert st.
  induction ls as [|l ls IH]; intros [cat secs] Hc Hs; [done|].
  cbn [fold_left]. cbn [fst snd] in Hc, Hs. apply IH.
  - destruct (parse_line_category_cases query cat secs l) as [-> | ->];
      [done|apply HQ].
  - destruct (parse_line_emits query cat secs l) as [->|(g1 & g2 & Hl & ->)];
      [done|].
    apply Forall_app. split; [done|]. apply Forall_singleton. by eapply HP.
Qed.

(** ** Theorems on the TOC parser, continued *)

Lemma filter_all_true {A} (f : A → bool) (l : list A) :
  (∀ x, f x = true) → List.filter f l = l.
Proof.
  intros Hf. induction l as [|x l IH]; [done|].
  cbn [List.filter]. by rewrite Hf, IH.
Qed.

(** X1: the parser emits at most one descriptor per list-item line that
    holds a link, whatever the query, and exactly one per such line when no
    query is given. *)
Theorem parse_toc_one_per_link_item toc query :
  (length (_parse_toc toc query)
   ≤ length (List.filter is_link_item (split_nl (strip toc))))%nat
  ∧ length (_parse_toc toc None)
    = length (List.filter is_link_item (split_nl (strip toc))).
Proof.
  unfold _parse_toc.
  destruct (parse_fold_length query (split_nl (strip toc)) "" []) as [H1 H2].
  cbn [length] in H1, H2. split; [lia|exact H2].
Qed.

(** X2: a query only filters: the result is the unfiltered parse restricted
    to the descriptors whose title or category contains the query, ignoring
    case; the empty query filters nothing. *)
Theorem parse_toc_query_filters toc query :
  _parse_toc toc query
  = List.filter (passes_query query) (_parse_toc toc None)
  ∧ _parse_toc toc (Some "") = _parse_toc toc None
  ∧ ∀ q d, query = Some q → q ≠ "" → d ∈ _parse_toc toc query →
      contains (lower q) (lower (title d)) = true
      ∨ contains (lower q) (lower (category d)) = true.
Proof.
  assert (Hf : ∀ qu, _parse_toc toc qu
                     = List.filter (passes_query qu) (_parse_toc toc None)).
  { intros qu. unfold _parse_toc.
    pose proof (parse_fold_filter qu (split_nl (strip toc)) "" []) as H.
    cbn [List.filter] in H. by rewrite H. }
  split; [apply Hf|]. split.
  - rewrite Hf. by apply filter_all_true.
  - intros q d -> Hq Hd. rewrite Hf in Hd.
    apply list_elem_of_In, List.filter_In in Hd as [_ Hp].
    unfold passes_query, filtered_out in Hp.
    apply String.eqb_neq in Hq. rewrite Hq in Hp. cbn [negb andb] in Hp.
    destruct (contains (lower q) (lower (title d))); [by left|].
    destruct (contains (lower q) (lower (category d))); [by right|done].
Qed.

Lemma parse_toc_query_filters_witness :
  contains (lower "DATA") (lower "Widgets") = true
  ∨ contains (lower "DATA") (lower "Data") = true.
Proof.
  destruct (parse_toc_query_filters guides_data_toc (Some "DATA"))
    as (_ & _ & H).
  apply (H "DATA" (descriptor "Data" "Widgets" "https://x/w"));
    [reflexivity|discriminate|].
  vm_compute. apply list_elem_of_here.
Defined.

(** X3: a blank line, a [#] heading, a bare URL or a list item without a
    link changes nothing: the TOC with such a line parses as the TOC without
    it. *)
Theorem parse_toc_passed_over_line toc toc' query l1 raw l2 :
  split_nl (strip toc) = (l1 ++ raw :: l2)%list →
  split_nl (strip toc') = (l1 ++ l2)%list →
  is_passed_over raw = true →
  _parse_toc toc query = _parse_toc toc' query.
Proof.
  intros H1 H2 Hp. unfold _parse_toc. rewrite H1, H2.
  rewrite !fold_left_app. cbn [fold_left].
  by rewrite parse_line_passed_over.
Qed.

Lemma parse_toc_passed_over_line_witness :
  _parse_toc guides_heading_toc None = _parse_toc guides_toc None.
Proof.
  apply (parse_toc_passed_over_line guides_heading_toc guides_toc None
           ["Guides"] "# Heading" ["- [Install](https://x/i)"]);
    vm_compute; reflexivity.
Defined.

(** X5: the title, url and category of every descriptor are trimmed, and
    they are free of the character that ends them in the TOC line: no [']']
    in a title, no [')'] in a url, no ['#'] in a category. *)
Theorem parse_toc_fields_trimmed toc query d :
  d ∈ _parse_toc toc query →
  strip (title d) = title d ∧ strip (url d) = url d
  ∧ strip (category d) = category d
  ∧ contains "]" (title d) = false ∧ contains ")" (url d) = false
  ∧ contains "#" (category d) = false.
Proof.
  revert d. apply Forall_forall. unfold _parse_toc.
  apply (parse_fold_inv
           (λ cat, strip cat = cat ∧ contains "#" cat = false)).
  - intros line. split; [apply strip_idempotent|].
    apply contains_char_strip, remove_char_gone.
  - intros cat line g1 g2 [Hc1 Hc2] Hs.
    destruct (link_search_free _ _ _ Hs) as [H1 H2].
    cbn [title url category descriptor].
    repeat split; auto using strip_idempotent, contains_char_strip.
  - done.
  - constructor.
Qed.

Lemma parse_toc_fields_trimmed_witness :
  strip "Widgets" = "Widgets" ∧ strip "https://x/w" = "https://x/w"
  ∧ strip "Data" = "Data"
  ∧ contains "]" "Widgets" = false ∧ contains ")" "https://x/w" = false
  ∧ contains "#" "Data" = false.
Proof.
  apply (parse_toc_fields_trimmed guides_data_toc None
           (descriptor "Data" "Widgets" "https://x/w")).
  vm_compute. apply list_elem_of_further, list_elem_of_here.
Defined.

(** ** The finder: absence, shape of the content, untrimmed titles *)

Lemma find_from_none_iff ttl ls :
  find_from ttl ls = None ↔ Forall (λ l, is_title_line ttl l = false) ls.
Proof.
  split; [|apply find_from_none].
  induction ls as [|l ls IH]; [constructor|]. cbn [find_from].
  destruct (is_title_line ttl l) eqn:Hl; [done|]. intros H. constructor; auto.
Qed.

Lemma skip_front_matter_suffix ls :
  ∃ pre, ls = (pre ++ skip_front_matter ls)%list.
Proof.
  induction ls as [|l ls [pre IH]]; [by exists []|]. cbn [skip_front_matter].
  destruct (is_delim l); [by exists []|].
  exists (l :: pre). cbn [app]. by rewrite <- IH.
Qed.

Lemma tail_suffix {A} (ls : list A) : ∃ pre, ls = (pre ++ tail ls)%list.
Proof. destruct ls as [|l ls]; [by exists []|by exists [l]]. Qed.

Lemma collect_body_prefix ls : ∃ post, ls = (collect_body ls ++ post)%list.
Proof.
  induction ls as [|l ls [post IH]]; [by exists []|].
  rewrite collect_body_unfold.
  destruct (at_boundary (l :: ls)); [by exists (l :: ls)|].
  exists post. cbn [app]. by rewrite <- IH.
Qed.

Lemma at_boundary_prefix body post :
  at_boundary body = true → at_boundary (body ++ post) = true.
Proof. by destruct body as [|l [|n body]]. Qed.

Lemma collect_body_no_boundary_inside ls k :
  at_boundary (drop k (collect_body ls)) = false.
Proof.
  revert k. induction ls as [|l ls IH]; intros k; [by destruct k|].
  rewrite collect_body_unfold.
  destruct (at_boundary (l :: ls)) eqn:Hb; [by destruct k|].
  destruct k as [|k]; [|apply IH]. rewrite drop_0.
  destruct (collect_body_prefix ls) as [post Hpost].
  destruct (at_boundary (l :: collect_body ls)) eqn:Hb'; [|done].
  apply (at_boundary_prefix _ post) in Hb'.
  cbn [app] in Hb'. rewrite <- Hpost in Hb'. congruence.
Qed.

Lemma find_from_segment ttl ls c :
  find_from ttl ls = Some c →
  ∃ pre tl mid body post,
    ls = (pre ++ tl :: mid ++ body ++ post)%list
    ∧ Forall (λ l, is_title_line ttl l = false) pre
    ∧ is_title_line ttl tl = true
    ∧ c = join_nl body
    ∧ ∀ k, at_boundary (drop k body) = false.
Proof.
  induction ls as [|l ls IH]; [done|]. cbn [find_from].
  destruct (is_title_line ttl l) eqn:Hl.
  - intros [= <-].
    destruct (skip_front_matter_suffix ls) as [m1 H1].
    destruct (tail_suffix (skip_front_matter ls)) as [m2 H2].
    destruct (collect_body_prefix (tail (skip_front_matter ls)))
      as [post H3].
    exists [], l, (m1 ++ m2)%list,
      (collect_body (tail (skip_front_matter ls))), post.
    split; [|split; [constructor|split; [done|split; [done|]]]].
    + cbn [app]. f_equal. rewrite <- app_assoc, <- H3, <- H2. exact H1.
    + apply collect_body_no_boundary_inside.
  - intros H. destruct (IH H) as (pre & tl & mid & body & post & -> & ?).
    exists (l :: pre), tl, mid, body, post. split; [done|].
    destruct_and!. repeat split; auto.
Qed.

Lemma isspace_lower_char c : isspace (lower_char c) = isspace c.
Proof. by destruct c as [[] [] [] [] [] [] [] []]. Qed.

Lemma lower_lstrip s : lower (lstrip s) = lstrip (lower s).
Proof.
  induction s as [|c s IH]; [done|]. cbn [lstrip lower].
  rewrite isspace_lower_char. by destruct (isspace c).
Qed.

Lemma lower_rstrip s : lower (rstrip s) = rstrip (lower s).
Proof.
  induction s as [|c s IH]; [done|]. cbn [rstrip lower].
  rewrite <- IH, isspace_lower_char.
  destruct (rstrip s); cbn [lower]; [by destruct (isspace c)|done].
Qed.

Lemma lower_strip s : lower (strip s) = strip (lower s).
Proof. unfold strip. by rewrite lower_rstrip, lower_lstrip. Qed.

Lemma length_lower s : String.length (lower s) = String.length s.
Proof. induction s as [|c s IH]; [done|]. cbn. by rewrite IH. Qed.

Lemma length_lstrip s : (String.length (lstrip s) ≤ String.length s)%nat.
Proof.
  induction s as [|c s IH]; [done|]. cbn [lstrip].
  destruct (isspace c); cbn [String.length]; lia.
Qed.

Lemma length_rstrip s : (String.length (rstrip s) ≤ String.length s)%nat.
Proof.
  induction s as [|c s IH]; [done|]. cbn [rstrip].
  destruct (rstrip s); [destruct (isspace c)|]; cbn [String.length] in *; lia.
Qed.

Lemma lstrip_full_length s :
  String.length (lstrip s) = String.length s → lstrip s = s.
Proof.
  destruct s as [|c s]; [done|]. cbn [lstrip].
  destruct (isspace c); [|done].
  pose proof (length_lstrip s). cbn [String.length]. lia.
Qed.

Lemma rstrip_full_length s :
  String.length (rstrip s) = String.length s → rstrip s = s.
Proof.
  induction s as [|c s IH]; [done|]. cbn [rstrip].
  pose proof (length_rstrip s) as Hle.
  destruct (rstrip s) as [|d r] eqn:Hr.
  - destruct (isspace c); cbn [String.length]; [lia|].
    intros H. destruct s; [done|]. cbn [String.length] in H. lia.
  - cbn [String.length] in *. intros H. f_equal. apply IH. lia.
Qed.

Lemma strip_full_length s :
  String.length (strip s) = String.length s → strip s = s.
Proof.
  unfold strip. intros H.
  pose proof (length_lstrip s). pose proof (length_rstrip (lstrip s)).
  rewrite rstrip_full_length by lia.
  apply lstrip_full_length. lia.
Qed.

(** A title equal up to case to a trimmed string is trimmed. *)
Lemma trimmed_of_lower x ttl :
  strip x = x → lower x = lower ttl → strip ttl = ttl.
Proof.
  intros Hx Hl. apply strip_full_length.
  rewrite <- (length_lower (strip ttl)), lower_strip, <- Hl, <- lower_strip.
  rewrite Hx, Hl. apply length_lower.
Qed.

Lemma is_title_line_trimmed ttl raw :
  is_title_line ttl raw = true → strip ttl = ttl.
Proof.
  unfold is_title_line. intros [_ H]%andb_prop. apply String.eqb_eq in H.
  eapply trimmed_of_lower; [|exact H]. apply strip_idempotent.
Qed.

(** X6: the finder returns [None] exactly when no line of the document is
    headed by the requested title. *)
Theorem find_section_content_none_iff docs ttl :
  _find_section_content docs ttl = None
  ↔ Forall (λ l, is_title_line ttl l = false) (split_nl docs).
Proof. rewrite find_section_content_list_view. apply find_from_none_iff. Qed.

(** X7: a content that is found is a run of consecutive lines of the
    document, joined with newlines; the run lies after the first line headed
    by the title and holds no section boundary. *)
Theorem find_section_content_segment docs ttl c :
  _find_section_content docs ttl = Some c →
  ∃ pre tl mid body post,
    split_nl docs = (pre ++ tl :: mid ++ body ++ post)%list
    ∧ Forall (λ l, is_title_line ttl l = false) pre
    ∧ is_title_line ttl tl = true
    ∧ c = join_nl body
    ∧ ∀ k, at_boundary (drop k body) = false.
Proof. rewrite find_section_content_list_view. apply find_from_segment. Qed.

Lemma find_section_content_segment_witness :
  ∃ pre tl mid body post,
    split_nl two_section_docs = (pre ++ tl :: mid ++ body ++ post)%list
    ∧ Forall (λ l, is_title_line "quickstart" l = false) pre
    ∧ is_title_line "quickstart" tl = true
    ∧ "Open a dashboard." = join_nl body
    ∧ ∀ k, at_boundary (drop k body) = false.
Proof.
  apply (find_section_content_segment two_section_docs "quickstart").
  vm_compute. reflexivity.
Defined.

(** X8: a requested title with leading or trailing whitespace heads no
    line, since the title of a line is trimmed before the comparison: it is
    never found, and the extractor maps it to the not-found placeholder. *)
Theorem untrimmed_title_not_found docs titles ttl :
  strip ttl ≠ ttl →
  ttl ∈ titles →
  _find_section_content docs ttl = None
  ∧ ∃ m, _extract_sections_from_docs docs titles = Return m
      ∧ m !! ttl = Some (not_found_msg ttl).
Proof.
  intros Hs Hin.
  assert (Hnone : _find_section_content docs ttl = None).
  { apply find_section_content_none_iff, Forall_forall. intros l _.
    destruct (is_title_line ttl l) eqn:Hl; [|done].
    by apply is_title_line_trimmed in Hl. }
  split; [exact Hnone|].
  destruct (extract_sections_with_lookup call_find docs titles)
    as (m & Hm & Hl).
  exists m. split; [exact Hm|].
  rewrite Hl, decide_True by done. unfold entry_of, call_find.
  by rewrite Hnone.
Qed.

Lemma untrimmed_title_not_found_witness :
  _find_section_content two_section_docs "Quickstart " = None
  ∧ ∃ m, _extract_sections_from_docs two_section_docs ["Quickstart "]
         = Return m
      ∧ m !! "Quickstart " = Some (not_found_msg "Quickstart ").
Proof.
  apply (untrimmed_title_not_found two_section_docs ["Quickstart "]
           "Quickstart ").
  - vm_compute. discriminate.
  - apply list_elem_of_here.
Defined.

(** X9: when several lines are headed by the requested title, the first one
    decides: the content is taken after the first such line, whatever
    follows the boundary of its section. *)
Theorem find_section_content_first_match docs ttl pre tl fm close after k :
  split_nl docs = (pre ++ tl :: fm ++ close :: after)%list →
  Forall (λ l, is_title_line ttl l = false) pre →
  is_title_line ttl tl = true →
  Forall (λ l, is_delim l = false) fm →
  is_delim close = true →
  first_boundary_at after k →
  _find_section_content docs ttl = Some (join_nl (take k after)).
Proof.
  intros Hsplit Hpre Htl Hfm Hclose Hk.
  rewrite find_section_content_list_view, Hsplit.
  rewrite (find_from_first ttl pre tl) by done.
  rewrite skip_front_matter_app by done. cbn [tail].
  by rewrite (collect_body_take after k).
Qed.

Lemma find_section_content_first_match_witness :
  _find_section_content twice_docs "WIDGETS" = Some "First body.".
Proof.
  apply (find_section_content_first_match twice_docs "WIDGETS"
           ["---"] "title: Widgets" [] "---"
           ["First body."; "---"; ""; "---"; "title: widgets"; "---";
            "Second body."; "---"; ""] 1).
  - vm_compute. reflexivity.
  - repeat constructor.
  - vm_compute. reflexivity.
  - constructor.
  - vm_compute. reflexivity.
  - split; [vm_compute; reflexivity|].
    intros k' Hk'. destruct k' as [|k']; [vm_compute; reflexivity|lia].
Defined.

(** ** The extractor: keys and found contents *)

Lemma extract_sections_with_dom find docs titles m :
  extract_sections_with find docs titles = Return m →
  dom m = (list_to_set titles : gset string)
  ∧ size m = length (remove_dups titles).
Proof.
  intros Hm.
  destruct (extract_sections_with_lookup find docs titles) as (m' & Hm' & Hl).
  rewrite Hm in Hm'. injection Hm' as <-.
  assert (Hdom : dom m = (list_to_set titles : gset string)).
  { apply set_eq. intros t. rewrite elem_of_dom, elem_of_list_to_set, Hl.
    case_decide; split; intros H'; try done; by destruct H'. }
  split; [exact Hdom|].
  rewrite <- (size_dom (D := gset string)), Hdom.
  rewrite <- (size_list_to_set (C := gset string) (remove_dups titles))
    by apply NoDup_remove_dups.
  f_equal. apply set_eq. intros t.
  by rewrite !elem_of_list_to_set, elem_of_remove_dups.
Qed.

(** X10: the extractor returns a mapping whose keys are exactly the
    requested titles, one entry per distinct title however often it is
    requested (none for the empty list), and a title whose content is found
    non-empty is mapped to that content unchanged. *)
Theorem extract_sections_keys docs titles :
  ∃ m, _extract_sections_from_docs docs titles = Return m
    ∧ dom m = (list_to_set titles : gset string)
    ∧ size m = length (remove_dups titles)
    ∧ ∀ t body, t ∈ titles →
        _find_section_content docs t = Some body → body ≠ "" →
        m !! t = Some body.
Proof.
  destruct (extract_sections_with_lookup call_find docs titles)
    as (m & Hm & Hl).
  destruct (extract_sections_with_dom call_find docs titles m Hm)
    as [Hd Hs].
  exists m. repeat split; [exact Hm|exact Hd|exact Hs|].
  intros t body Hin Hf Hb. rewrite Hl, decide_True by done.
  unfold entry_of, call_find. rewrite Hf. cbn [truthy default].
  apply String.eqb_neq in Hb. by rewrite Hb.
Qed.

Lemma extract_sections_keys_witness :
  ∃ m, _extract_sections_from_docs two_section_docs
         ["Quickstart"; "Pricing"; "Quickstart"] = Return m
    ∧ size m = 2
    ∧ m !! "Quickstart" = Some "Open a dashboard.".
Proof.
  destruct (extract_sections_keys two_section_docs
              ["Quickstart"; "Pricing"; "Quickstart"])
    as (m & Hm & _ & Hs & Hf).
  exists m. split; [exact Hm|]. split; [exact Hs|].
  apply Hf; [apply list_elem_of_here|vm_compute; reflexivity|discriminate].
Defined.

(** X11: requested titles that differ only in letter case are separate
    keys of the result, and a content found for one is the content of the
    other. *)
Theorem extract_case_variants docs titles t t' body :
  lower t = lower t' →
  t ∈ titles → t' ∈ titles →
  _find_section_content docs t = Some body → body ≠ "" →
  ∃ m, _extract_sections_from_docs docs titles = Return m
    ∧ m !! t = Some body ∧ m !! t' = Some body.
Proof.
  intros Hl Ht Ht' Hf Hb.
  destruct (extract_sections_with_lookup call_find docs titles)
    as (m & Hm & Hlk).
  exists m. split; [exact Hm|].
  rewrite !Hlk, !decide_True by done. unfold entry_of, call_find.
  rewrite <- (find_section_content_lower docs t t' Hl), Hf.
  cbn [truthy default]. apply String.eqb_neq in Hb. by rewrite Hb.
Qed.

Lemma extract_case_variants_witness :
  ∃ m, _extract_sections_from_docs two_section_docs
         ["Quickstart"; "QUICKSTART"] = Return m
    ∧ m !! "Quickstart" = Some "Open a dashboard."
    ∧ m !! "QUICKSTART" = Some "Open a dashboard.".
Proof.
  apply (extract_case_variants two_section_docs
           ["Quickstart"; "QUICKSTART"] "Quickstart" "QUICKSTART").
  - vm_compute. reflexivity.
  - apply list_elem_of_here.
  - apply list_elem_of_further, list_elem_of_here.
  - vm_compute. reflexivity.
  - discriminate.
Defined.

(** ** The operation layer, continued *)

Lemma url_map_fold_keys (parsed : list section) (m0 : gmap string string) t :
  is_Some (fold_left (λ m s, <[title s := url s]> m) parsed m0 !! t)
  ↔ is_Some (m0 !! t) ∨ ∃ d, d ∈ parsed ∧ title d = t.
Proof.
  revert m0. induction parsed as [|d ds IH]; intros m0; cbn [fold_left].
  - split; [by left|]. intros [H|(d & Hd & _)]; [done|].
    by apply elem_of_nil in Hd.
  - rewrite IH. rewrite lookup_insert. split.
    + intros [H|(d' & Hd' & Ht)].
      * case_decide; [|by left]. right. exists d. split; [|done].
        apply list_elem_of_here.
      * right. exists d'. split; [|done]. by apply list_elem_of_further.
    + intros [H|(d' & Hd' & Ht)].
      * left. by case_decide.
      * apply elem_of_cons in Hd' as [->|Hd'].
        -- left. by rewrite decide_True.
        -- right. eauto.
Qed.

Lemma url_map_keys parsed t :
  is_Some (url_map parsed !! t) ↔ ∃ d, d ∈ parsed ∧ title d = t.
Proof.
  unfold url_map. rewrite url_map_fold_keys, lookup_empty.
  split; [|by right]. intros [H|H]; [by destruct H|done].
Qed.

Lemma url_map_last l1 d l2 :
  (∀ d', d' ∈ l2 → title d' ≠ title d) →
  url_map (l1 ++ d :: l2) !! title d = Some (url d).
Proof.
  intros Habs. unfold url_map. rewrite fold_left_app. cbn [fold_left].
  rewrite url_map_fold_absent by done. apply lookup_insert_eq.
Qed.

Lemma identify_served get toc_r q :
  get TOC_URL = Return toc_r →
  raise_for_status toc_r = Return tt →
  _identify_sections_async get q
  = Return {[ "success" := VBool true;
              "query" := VStr q;
              "raw_toc_content" := VStr (text toc_r);
              "section_urls"
                := VUrls (url_map (_parse_toc (text toc_r) None)) ]}.
Proof.
  intros Ht Hs. unfold _identify_sections_async, identify_body.
  rewrite Ht. cbn [mbind outcome_bind]. rewrite Hs. reflexivity.
Qed.

Lemma identify_returns get q :
  ∃ r, _identify_sections_async get q = Return r.
Proof.
  unfold _identify_sections_async.
  destruct (identify_body get q); cbn; eauto.
Qed.

Lemma fetch_returns get titles q :
  ∃ r, _fetch_content_async get titles q = Return r.
Proof.
  unfold _fetch_content_async.
  destruct (fetch_body get titles q); cbn; eauto.
Qed.

(** X12: each registered tool returns what its operation returns; the
    handler that logs and raises again is never entered, so a tool call
    never raises. *)
Theorem tools_return_operation_result get titles q :
  identify_openbb_docs_sections get q = _identify_sections_async get q
  ∧ fetch_openbb_content get titles q = _fetch_content_async get titles q
  ∧ (∃ r, identify_openbb_docs_sections get q = Return r)
  ∧ (∃ r, fetch_openbb_content get titles q = Return r).
Proof.
  unfold identify_openbb_docs_sections, fetch_openbb_content.
  destruct (identify_returns get q) as [r1 ->].
  destruct (fetch_returns get titles q) as [r2 ->].
  cbn. repeat split; eauto.
Qed.

(** X13: when the TOC arrives, the discovery response holds the TOC text
    unchanged and a [section_urls] mapping whose keys are exactly the titles
    of the parsed descriptors; a title carried by several links is mapped to
    the url of the last of them. *)
Theorem identify_section_urls get toc_r q :
  get TOC_URL = Return toc_r →
  raise_for_status toc_r = Return tt →
  ∃ r m,
    _identify_sections_async get q = Return r
    ∧ r !! "success" = Some (VBool true)
    ∧ r !! "raw_toc_content" = Some (VStr (text toc_r))
    ∧ r !! "section_urls" = Some (VUrls m)
    ∧ (∀ t, is_Some (m !! t)
            ↔ ∃ d, d ∈ _parse_toc (text toc_r) None ∧ title d = t)
    ∧ ∀ l1 d l2,
        _parse_toc (text toc_r) None = (l1 ++ d :: l2)%list →
        (∀ d', d' ∈ l2 → title d' ≠ title d) →
        m !! title d = Some (url d).
Proof.
  intros Ht Hs. eexists _, _.
  split; [by apply identify_served|].
  repeat split; try reflexivity.
  - by apply url_map_keys.
  - by apply url_map_keys.
  - intros l1 d l2 -> Habs. by apply url_map_last.
Qed.

Lemma identify_section_urls_witness :
  ∃ r m,
    _identify_sections_async (serving_get repeated_title_toc "") "install"
    = Return r
    ∧ r !! "raw_toc_content" = Some (VStr repeated_title_toc)
    ∧ r !! "section_urls" = Some (VUrls m)
    ∧ m !! "Install" = Some "https://x/new".
Proof.
  destruct (identify_section_urls (serving_get repeated_title_toc "")
              {| raise_for_status := Return tt; text := repeated_title_toc |}
              "install")
    as (r & m & Hr & _ & Hraw & Hm & _ & Hlast); try reflexivity.
  exists r, m. repeat split; [exact Hr|exact Hraw|exact Hm|].
  apply (Hlast [descriptor "Guides" "Install" "https://x/old"]
           (descriptor "Guides" "Install" "https://x/new") []).
  - vm_compute. reflexivity.
  - intros d' Hd'. by apply elem_of_nil in Hd'.
Defined.

(** X14: the query of a call is only echoed: the same call with another
    query returns the same response, with the other query in its [query]
    (discovery) or [user_query] (fetch) field. *)
Theorem user_query_only_echoed get titles q q' :
  (∀ r, _identify_sections_async get q = Return r →
     _identify_sections_async get q' = Return (<["query" := VStr q']> r))
  ∧ (∀ r, _fetch_content_async get titles q = Return r →
       _fetch_content_async get titles q'
       = Return (<["user_query" := VStr q']> r)).
Proof.
  split.
  - unfold _identify_sections_async, identify_body.
    destruct (get TOC_URL) as [resp|e]; cbn;
      [destruct (raise_for_status resp) as [[]|e]; cbn|];
      intros r [= <-]; f_equal; apply map_eq; intros k;
      repeat (rewrite lookup_insert; case_decide; simplify_eq; try done).
  - unfold _fetch_content_async, fetch_body.
    destruct (get TOC_URL) as [resp|e]; cbn;
      [destruct (raise_for_status resp) as [[]|e]; cbn;
       [destruct (get FULL_DOCS_URL) as [dresp|e]; cbn;
        [destruct (raise_for_status dresp) as [[]|e]; cbn;
         [destruct (extract_sections_with_lookup call_find (text dresp) titles)
            as (cs & Hcs & _);
          unfold _extract_sections_from_docs; rewrite Hcs; cbn| ]| ]| ]| ];
      intros r [= <-]; f_equal; apply map_eq; intros k;
      repeat (rewrite lookup_insert; case_decide; simplify_eq; try done).
Qed.

Lemma user_query_only_echoed_witness :
  _identify_sections_async (serving_get guides_toc "") "widgets"
  = Return (<["query" := VStr "widgets"]>
              {[ "success" := VBool true;
                 "query" := VStr "install";
                 "raw_toc_content" := VStr guides_toc;
                 "section_urls"
                   := VUrls (url_map (_parse_toc guides_toc None)) ]}).
Proof.
  destruct (user_query_only_echoed (serving_get guides_toc "") []
              "install" "widgets") as [H _].
  apply H. reflexivity.
Defined.

(** X15: the fetch goes through the TOC request, its status check, the
    full-docs request and its status check in that order, and the first of
    them that raises decides the response: the structured failure with that
    error, and no content, even when the TOC did arrive. *)
Theorem fetch_reports_first_failure get titles q e :
  get TOC_URL = Raise e
  ∨ (∃ r, get TOC_URL = Return r ∧ raise_for_status r = Raise e)
  ∨ (∃ r, get TOC_URL = Return r ∧ raise_for_status r = Return tt
       ∧ (get FULL_DOCS_URL = Raise e
          ∨ ∃ r', get FULL_DOCS_URL = Return r'
              ∧ raise_for_status r' = Raise e)) →
  _fetch_content_async get titles q
  = Return {[ "success" := VBool false;
              "error" := VStr (exn_msg e);
              "error_type" := VStr (exn_type e);
              "traceback" := VStr (exn_traceback e);
              "user_query" := VStr q;
              "extracted_content" := VSections ∅ ]}.
Proof.
  unfold _fetch_content_async, fetch_body.
  intros [H|[(r & H & Hs)|(r & H & Hs & [Hd|(r' & Hd & Hds)])]];
    rewrite H; cbn [mbind outcome_bind]; try done;
    rewrite Hs; cbn [mbind outcome_bind]; try done;
    rewrite Hd; cbn [mbind outcome_bind]; try done.
  by rewrite Hds.
Qed.

Lemma fetch_reports_first_failure_witness :
  _fetch_content_async (docs_down_get guides_toc) ["Install"] "install"
  = Return {[ "success" := VBool false;
              "error" := VStr "Server error '503 Service Unavailable'";
              "error_type" := VStr "HTTPStatusError";
              "traceback" := VStr "Traceback (most recent call last): ...";
              "user_query" := VStr "install";
              "extracted_content" := VSections ∅ ]}.
Proof.
  apply (fetch_reports_first_failure (docs_down_get guides_toc) ["Install"]
           "install" status_error).
  right. right.
  exists {| raise_for_status := Return tt; text := guides_toc |}.
  split; [reflexivity|]. split; [reflexivity|]. right.
  exists {| raise_for_status := Raise status_error; text := "" |}.
  split; reflexivity.
Defined.

(** X16: a requested title that is the title of a TOC entry gets the url of
    the last TOC entry with that title, next to its content. *)
Theorem fetch_attaches_toc_url get toc_r docs_r titles q l1 d l2 :
  get TOC_URL = Return toc_r →
  raise_for_status toc_r = Return tt →
  get FULL_DOCS_URL = Return docs_r →
  raise_for_status docs_r = Return tt →
  _parse_toc (text toc_r) None = (l1 ++ d :: l2)%list →
  (∀ d', d' ∈ l2 → title d' ≠ title d) →
  title d ∈ titles →
  ∃ r ec entry,
    _fetch_content_async get titles q = Return r
    ∧ r !! "extracted_content" = Some (VSections ec)
    ∧ ec !! title d = Some entry
    ∧ entry !! "url" = Some (url d)
    ∧ is_Some (entry !! "content").
Proof.
  intros Ht Hts Hd Hds Hp Habs Hin.
  destruct (fetch_served get toc_r docs_r titles q Ht Hts Hd Hds)
    as (cs & Hcs & Hr).
  destruct (attach_urls_spec (url_map (_parse_toc (text toc_r) None)) cs)
    as [Hl _].
  destruct (extract_sections_with_lookup call_find (text docs_r) titles)
    as (cs' & Hcs' & Hlk).
  unfold _extract_sections_from_docs in Hcs. rewrite Hcs in Hcs'.
  injection Hcs' as <-.
  eexists _, _, _. split; [exact Hr|]. split; [reflexivity|].
  split.
  - rewrite Hl, Hlk, decide_True by done. reflexivity.
  - unfold with_url. rewrite Hp, url_map_last by done. cbn [default].
    split; [reflexivity|]. by eexists.
Qed.

Lemma fetch_attaches_toc_url_witness :
  ∃ r ec entry,
    _fetch_content_async (serving_get repeated_title_toc two_section_docs)
      ["Install"] "install" = Return r
    ∧ r !! "extracted_content" = Some (VSections ec)
    ∧ ec !! "Install" = Some entry
    ∧ entry !! "url" = Some "https://x/new"
    ∧ is_Some (entry !! "content").
Proof.
  apply (fetch_attaches_toc_url
           (serving_get repeated_title_toc two_section_docs)
           {| raise_for_status := Return tt; text := repeated_title_toc |}
           {| raise_for_status := Return tt; text := two_section_docs |}
           ["Install"] "install"
           [descriptor "Guides" "Install" "https://x/old"]
           (descriptor "Guides" "Install" "https://x/new") []);
    try reflexivity.
  - intros d' Hd'. by apply elem_of_nil in Hd'.
  - apply list_elem_of_here.
Defined.

(** X17: when both documents arrive, the fetch succeeds and
    [sections_found] is the number of distinct requested titles, whatever
    the documents hold: 0 for the empty list, and a title requested twice
    counts once. *)
Theorem sections_found_distinct_titles get toc_r docs_r titles q :
  get TOC_URL = Return toc_r →
  raise_for_status toc_r = Return tt →
  get FULL_DOCS_URL = Return docs_r →
  raise_for_status docs_r = Return tt →
  ∃ r,
    _fetch_content_async get titles q = Return r
    ∧ r !! "success" = Some (VBool true)
    ∧ r !! "sections_found" = Some (VInt (length (remove_dups titles))).
Proof.
  intros Ht Hts Hd Hds.
  destruct (fetch_served get toc_r docs_r titles q Ht Hts Hd Hds)
    as (cs & Hcs & Hr).
  destruct (extract_sections_with_dom call_find (text docs_r) titles cs Hcs)
    as [_ Hs].
  eexists. split; [exact Hr|]. split; [reflexivity|].
  unfold fetch_payload. rewrite Hs. reflexivity.
Qed.

Lemma sections_found_distinct_titles_witness :
  ∃ r,
    _fetch_content_async (serving_get guides_toc two_section_docs)
      ["Quickstart"; "Nothing"; "Quickstart"] "start" = Return r
    ∧ r !! "success" = Some (VBool true)
    ∧ r !! "sections_found" = Some (VInt 2).
Proof.
  apply (sections_found_distinct_titles
           (serving_get guides_toc two_section_docs)
           {| raise_for_status := Return tt; text := guides_toc |}
           {| raise_for_status := Return tt; text := two_section_docs |}
           ["Quickstart"; "Nothing"; "Quickstart"] "start");
    reflexivity.
Defined.

(** ** The scope of a category *)

Lemma parse_line_sets_category query cat secs raw :
  is_category_line raw = true →
  parse_line query (cat, secs) raw
  = (strip (remove_char "#" (strip raw)), secs).
Proof.
  unfold is_category_line, parse_line. cbv zeta.
  destruct (String.eqb (strip raw) ""); [done|].
  destruct (is_list_item (strip raw)); [done|]. cbn [negb andb].
  by intros ->.
Qed.

Lemma parse_line_keeps_category query cat secs raw :
  is_category_line raw = false →
  fst (parse_line query (cat, secs) raw) = cat.
Proof.
  unfold is_category_line, parse_line. cbv zeta.
  destruct (String.eqb (strip raw) ""); [done|].
  destruct (is_list_item (strip raw)); cbn [negb andb].
  - intros _. repeat (case_match; simplify_eq; try done).
  - by intros ->.
Qed.

Lemma parse_fold_keeps_category query ls cat secs :
  Forall (λ l, is_category_line l = false) ls →
  fst (fold_left (parse_line query) ls (cat, secs)) = cat.
Proof.
  intros H. revert secs. induction H as [|l ls Hl _ IH]; intros secs; [done|].
  cbn [fold_left].
  pose proof (parse_line_keeps_category query cat secs l Hl) as Hc.
  destruct (parse_line query (cat, secs) l) as [c s]. cbn [fst] in Hc.
  subst c. apply IH.
Qed.

(** X18: a link in a list item is filed under the nearest category line
    above it: with no query, its descriptor carries that line with the [#]
    characters removed and trimmed as category, whatever list items, headings,
    bare URLs or blank lines stand in between. *)
Theorem parse_toc_category_scope toc l1 c l2 item l3 g1 g2 :
  split_nl (strip toc) = (l1 ++ c :: l2 ++ item :: l3)%list →
  is_category_line c = true →
  Forall (λ l, is_category_line l = false) l2 →
  is_list_item (strip item) = true →
  link_search (strip item) = Some (g1, g2) →
  descriptor (strip (remove_char "#" (strip c))) (strip g1) (strip g2)
  ∈ _parse_toc toc None.
Proof.
  intros Hsplit Hc Hl2 Hitem Hlink. unfold _parse_toc. rewrite Hsplit.
  rewrite fold_left_app. cbn [fold_left].
  destruct (fold_left (parse_line None) l1 ("", [])) as [cat1 s1].
  rewrite parse_line_sets_category by done.
  rewrite fold_left_app. cbn [fold_left].
  pose proof (parse_fold_keeps_category None l2
                (strip (remove_char "#" (strip c))) s1 Hl2) as Hk.
  destruct (fold_left (parse_line None) l2 _) as [cat2 s2].
  cbn [fst] in Hk. subst cat2.
  destruct (parse_line_cases None (strip (remove_char "#" (strip c))) s2 item)
    as [[Hn _]|[_ (h1 & h2 & Hs & ->)]].
  - unfold is_link_item in Hn. by rewrite Hitem, Hlink in Hn.
  - rewrite Hlink in Hs. injection Hs as <- <-. cbn [filtered_out].
    destruct (parse_fold_extends None l3
                (strip (remove_char "#" (strip c)),
                 (s2 ++ [descriptor (strip (remove_char "#" (strip c)))
                           (strip g1) (strip g2)])%list)) as [more ->].
    cbn [snd]. rewrite !elem_of_app. left. right. apply list_elem_of_here.
Qed.

Lemma parse_toc_category_scope_witness :
  descriptor "Data" "Data Guides" "https://x/d"
  ∈ _parse_toc guides_data_toc None.
Proof.
  apply (parse_toc_category_scope guides_data_toc
           ["Guides"; "- [Install](https://x/i)"] "Data"
           ["- see below"; "* [Widgets]( https://x/w )"]
           "3. [Data Guides](https://x/d)" [] "Data Guides" "https://x/d").
  - vm_compute. reflexivity.
  - vm_compute. reflexivity.
  - repeat constructor.
  - vm_compute. reflexivity.
  - vm_compute. reflexivity.
Defined.

(** ** Continuing a TOC *)

(** What a line appends does not depend on what was collected before. *)
Lemma parse_line_acc query cat secs raw :
  parse_line query (cat, secs) raw
  = (fst (parse_line query (cat, []) raw),
     (secs ++ snd (parse_line query (cat, []) raw))%list).
Proof.
  unfold parse_line.
  repeat (case_match; simplify_eq; cbn [fst snd app];
          rewrite ?app_nil_r; try done).
Qed.

Lemma parse_fold_acc query ls cat secs :
  fold_left (parse_line query) ls (cat, secs)
  = (fst (fold_left (parse_line query) ls (cat, [])),
     (secs ++ parse_lines_from query cat ls)%list).
Proof.
  unfold parse_lines_from. revert cat secs.
  induction ls as [|l ls IH]; intros cat secs.
  - cbn. by rewrite app_nil_r.
  - cbn [fold_left]. rewrite (parse_line_acc query cat secs l).
    destruct (parse_line query (cat, []) l) as [c e]. cbn [fst snd].
    rewrite (IH c (secs ++ e)%list), (IH c e). cbn [fst snd].
    by rewrite app_assoc.
Qed.

(** X4: descriptors come in the order of the lines: a TOC continued by more
    lines parses to the descriptors of the shorter TOC, followed by the
    descriptors that the loop yields on the added lines from the category
    reached at the end of the shorter TOC; when no category was reached, or
    the added lines open with a category line, these are the descriptors of
    the added lines parsed on their own. *)
Theorem parse_toc_extends toc toc' query l2 :
  split_nl (strip toc') = (split_nl (strip toc) ++ l2)%list →
  _parse_toc toc' query
  = (_parse_toc toc query
     ++ parse_lines_from query (category_reached query toc) l2)%list
  ∧ ∀ added,
      split_nl (strip added) = l2 →
      category_reached query toc = ""
      ∨ (∃ c l2', l2 = c :: l2' ∧ is_category_line c = true) →
      _parse_toc toc' query
      = (_parse_toc toc query ++ _parse_toc added query)%list.
Proof.
  intros H.
  assert (Heq : _parse_toc toc' query
                = (_parse_toc toc query
                   ++ parse_lines_from query (category_reached query toc) l2)%list).
  { unfold _parse_toc, category_reached. rewrite H, fold_left_app.
    destruct (fold_left (parse_line query) (split_nl (strip toc)) ("", []))
      as [c1 s1].
    by rewrite parse_fold_acc. }
  split; [exact Heq|].
  intros added Hadded Hcase. rewrite Heq. f_equal.
  unfold _parse_toc, parse_lines_from. rewrite Hadded.
  destruct Hcase as [-> |(c & l2' & -> & Hc)]; [done|].
  cbn [fold_left]. by rewrite !parse_line_sets_category.
Qed.

Lemma parse_toc_extends_witness :
  _parse_toc guides_data_toc None
  = (_parse_toc guides_toc None
     ++ _parse_toc guides_data_tail_toc None)%list.
Proof.
  destruct (parse_toc_extends guides_toc guides_data_toc None
              ["Data"; "- see below"; "* [Widgets]( https://x/w )";
               "3. [Data Guides](https://x/d)"]) as [_ H].
  - vm_compute. reflexivity.
  - apply (H guides_data_tail_toc).
    + vm_compute. reflexivity.
    + right. eexists _, _. split; [reflexivity|]. vm_compute. reflexivity.
Defined.
